(** * mandelbrot-bench: the escape-iteration kernel, the sample grid, the three
    render strategies and the render session of [MandelbrotWidget].

    The development follows [MandelbrotWidget.cpp] (the later of the two
    revisions of the file, the one with the [pixels]/[points]/[results]
    vectors) and [MandelbrotWidget.h].

    - A C++ [double] is an IEEE 754 binary64 number: Rocq's primitive
      [float], whose [+ - * / sqrt <] are the correctly rounded operations.
    - [std::abs] and [std::pow] belong to the C++ library, not to the
      repository: they are the methods of the class [Libm]; a theorem about
      the host kernel holds for every library, or states what it needs of
      the library as a hypothesis.
    - The OpenCL run of the device kernel can throw: its outcome is an input
      of the model ([DeviceRun]).
    - The render job is a computation in an error monad ([Run]) that yields
      the list of its effects on the widget in program order ([Effect]). *)

From Stdlib Require Import ZArith Lia Bool String List Floats Uint63.
From stdpp Require Import base option list gmap.

#[local] Set Warnings "-inexact-float".

Open Scope Z_scope.

(** ** Numbers *)

Abbreviation double := float.

(** [std::complex<double>]: a pair of doubles. *)
Record complex := Complex { real : double; imag : double }.

(** [operator+] of [std::complex]: componentwise. *)
Definition cadd (a b : complex) : complex :=
  Complex (real a + real b)%float (imag a + imag b)%float.

(** Conversion of an [int] to [double] (exact for every 32-bit value). *)
Definition of_int (z : Z) : double :=
  if z <? 0 then (- of_uint63 (Uint63.of_Z (- z)))%float
  else of_uint63 (Uint63.of_Z z).

(** [static_cast<int>] of a double: truncation toward zero.  The cast is
    undefined on NaN and infinities; the model returns 0 there. *)
Definition to_int (f : double) : Z :=
  match Prim2SF f with
  | S754_finite s m e =>
      let v := if 0 <=? e then Z.pos m * 2 ^ e else Z.pos m / 2 ^ (- e) in
      if s then - v else v
  | _ => 0
  end.

(** The three functions of the C++ library the host kernel calls. *)
Class Libm := {
  std_abs : complex -> double;             (* std::abs(std::complex<double>) *)
  std_pow_complex : complex -> Z -> complex; (* std::pow(std::complex<double>, int) *)
  std_pow : double -> Z -> double          (* std::pow(double, int) *)
}.

(** A library that computes the three functions by the formulas the device
    kernel spells out. *)
Definition textbook_libm : Libm := {|
  std_abs c := PrimFloat.sqrt (real c * real c + imag c * imag c)%float;
  std_pow_complex z _ :=
    Complex (real z * real z - imag z * imag z)%float
            (2 * real z * imag z)%float;
  std_pow x _ := (x * x)%float
|}.

(** ** The escape-iteration kernel *)

Section HostKernel.
Context `{L : Libm}.

(** The [for (int i = 0; i < 100; ++i)] loop of [calculateMandelbrot]:
    [n] iterations are left, [i] is the loop counter, [z] is
    [zSquaredPlusC]. *)
Fixpoint mandelbrot_loop (c z : complex) (i : Z) (n : nat) : Z :=
  match n with
  | O => 0
  | S n' =>
      let z' := cadd (std_pow_complex z 2) c in
      if (4 <? std_pow (real z') 2 + std_pow (imag z') 2)%float
      then i + 1
      else mandelbrot_loop c z' (i + 1) n'
  end.

Definition calculateMandelbrot (c : complex) : Z :=
  if (2 <? std_abs c)%float then 1
  else mandelbrot_loop c c 0 100.

(** The orbit z₀ = c, z_{n+1} = z_n² + c, and the escape test. *)
Fixpoint orbit (c : complex) (n : nat) : complex :=
  match n with
  | O => c
  | S k => cadd (std_pow_complex (orbit c k) 2) c
  end.

Definition escaped (z : complex) : bool :=
  (4 <? std_pow (real z) 2 + std_pow (imag z) 2)%float.

End HostKernel.

(** The body of [BOOST_COMPUTE_FUNCTION(int, calculateMandelbrotCompute, ...)]:
    the OpenCL kernel, over [double2] values. *)
Fixpoint compute_loop (c z : complex) (i : Z) (n : nat) : Z :=
  match n with
  | O => 0
  | S n' =>
      let newzc :=
        Complex (real z * real z - imag z * imag z + real c)%float
                (2 * real z * imag z + imag c)%float in
      if (4 <? real newzc * real newzc + imag newzc * imag newzc)%float
      then i + 1
      else compute_loop c newzc (i + 1) n'
  end.

Definition calculateMandelbrotCompute (c : complex) : Z :=
  if (2 <? PrimFloat.sqrt (real c * real c + imag c * imag c))%float then 1
  else compute_loop c c 0 100.

(** The origin, [std::complex<double>{0, 0}]. *)
Definition origin : complex := Complex 0 0.

(** ** Failures *)

(** What can stop the render job: a division whose divisor is zero (made
    explicit so that its absence can be stated; IEEE division itself is
    total), and an exception that no handler in [rerender] catches. *)
Inductive Failure :=
  | DivideByZero
  | Uncaught (code : Z).

Inductive Run (A : Type) :=
  | Done (a : A)
  | Fail (e : Failure).
Arguments Done {A} a.
Arguments Fail {A} e.

#[export] Instance Run_ret : MRet Run := fun A a => Done a.
#[export] Instance Run_bind : MBind Run := fun A B f m =>
  match m with
  | Done a => f a
  | Fail e => Fail e
  end.

(** A [for] loop over the values [xs], threading the variables [s] the body
    updates. *)
Fixpoint for_each {A S : Type} (xs : list A) (body : A -> S -> Run S) (s : S)
  : Run S :=
  match xs with
  | [] => Done s
  | x :: xs' => s' ← body x s; for_each xs' body s'
  end.

(** [x / n] for a double [x] and an [int] divisor [n]. *)
Definition div_by (x : double) (n : Z) : Run double :=
  if n =? 0 then Fail DivideByZero else Done (x / of_int n)%float.

(** [a / b] on [int]: truncating. *)
Definition int_div (a b : Z) : Run Z :=
  if b =? 0 then Fail DivideByZero else Done (Z.quot a b).

(** ** The widget *)

Inductive RenderType := CpuSingleThread | CpuMultiThread | Gpu.
Inductive FractalView := EntireSet | LeftSpike.

Record QColor := rgb { red : Z; green : Z; blue : Z }.
Definition black : QColor := rgb 0 0 0.

(** [QPoint{x, y}]; the grid stores [{row, col}]. *)
Abbreviation QPoint := (Z * Z)%type.

(** The first argument of the label's format string. *)
Inductive TimeText :=
  | SingleThreadedCpu
  | MultiThreadedCpu (threads : Z)
  | DeviceName (name : string).

(** The text of [m_debugLabel]: empty, or the arguments of
    ["%1\n%2x%2 px\n%3 ns\n%4 ms\n%5 s"] ([%4] and [%5] are [%3] rescaled). *)
Inductive LabelText :=
  | NoText
  | Timing (who : TimeText) (size : Z) (nanos : Z).

Record MandelbrotWidget := {
  m_renderType : RenderType;
  m_size : Z;
  m_doneRendering : bool;
  m_pixmap : gmap (Z * Z) QColor;
  m_debugLabel : LabelText;
  m_view : FractalView
}.

(** ** The sample grid *)

(** The [switch (m_view)] of the inner loop body. *)
Definition sample (view : FractalView) (row col size : Z) : Run complex :=
  match view with
  | EntireSet =>
      re ← div_by (4.0 * of_int row) size;
      im ← div_by (4.0 * of_int col) size;
      mret (Complex (-2.5 + re) (-2.0 + im))
  | LeftSpike =>
      re ← div_by (0.25 * of_int row) size;
      im ← div_by (0.25 * of_int col) size;
      mret (Complex (-1.7 + re) (-0.125 + im))
  end.

(** The two nested loops that fill [pixels] and [points]. *)
Definition generateGrid (size : Z) (view : FractalView)
  : Run (list QPoint * list complex) :=
  for_each (seqZ 0 size) (fun row =>
    for_each (seqZ 0 size) (fun col '(pixels, points) =>
      p ← sample view row col size;
      mret (pixels ++ [(row, col)], points ++ [p])))
    ([], []).

(** The affine map of a view, as one expression. *)
Definition sample_at (view : FractalView) (row col size : Z) : complex :=
  match view with
  | EntireSet =>
      Complex (-2.5 + 4.0 * of_int row / of_int size)
              (-2.0 + 4.0 * of_int col / of_int size)
  | LeftSpike =>
      Complex (-1.7 + 0.25 * of_int row / of_int size)
              (-0.125 + 0.25 * of_int col / of_int size)
  end.

(** The grid as two row-major lists. *)
Definition grid_pixels (size : Z) : list QPoint :=
  row ← seqZ 0 size; (λ col, (row, col)) <$> seqZ 0 size.

Definition grid_points (size : Z) (view : FractalView) : list complex :=
  row ← seqZ 0 size; (λ col, sample_at view row col size) <$> seqZ 0 size.

(** Entry [i] of the grid: the pixel and the sample the generator put at
    position [i] of [pixels] and [points]. *)
Definition grid_at (size : Z) (view : FractalView) (i : Z) : option (QPoint * complex) :=
  match generateGrid size view with
  | Done (pixels, points) =>
      pixel ← pixels !! Z.to_nat i; point ← points !! Z.to_nat i; Some (pixel, point)
  | Fail _ => None
  end.

Definition grid_length (size : Z) (view : FractalView) : option (Z * Z) :=
  match generateGrid size view with
  | Done (pixels, points) => Some (Z.of_nat (length pixels), Z.of_nat (length points))
  | Fail _ => None
  end.

(** ** Effects of the widget's methods *)

(** An item written to [std::cout]. *)
Inductive Printed :=
  | PrintString (s : string)
  | PrintInt (n : Z).

(** What a method does to the widget and to the outside, in program order. *)
Inductive Effect :=
  | SetDoneRendering (b : bool)          (* m_doneRendering = b *)
  | SetText (t : LabelText)              (* m_debugLabel->setText(t) *)
  | ResizeLabel                          (* m_debugLabel->resize(sizeHint()) *)
  | SetView (v : FractalView)            (* m_view = v *)
  | DrawPoint (p : QPoint) (c : QColor)  (* setPen(c); drawPoint(p) on m_pixmap *)
  | Cout (x : Printed)                   (* std::cout << x << std::endl *)
  | Launch                               (* QtConcurrent::run(threadPool, job) *)
  | EmitRendering                        (* emit rendering(renderJob) *)
  | EmitDoneRendering                    (* emit doneRendering() *)
  | Update.                              (* update() *)

Definition apply_effect (w : MandelbrotWidget) (e : Effect) : MandelbrotWidget :=
  match e with
  | SetDoneRendering b =>
      {| m_renderType := m_renderType w; m_size := m_size w;
         m_doneRendering := b; m_pixmap := m_pixmap w;
         m_debugLabel := m_debugLabel w; m_view := m_view w |}
  | SetText t =>
      {| m_renderType := m_renderType w; m_size := m_size w;
         m_doneRendering := m_doneRendering w; m_pixmap := m_pixmap w;
         m_debugLabel := t; m_view := m_view w |}
  | SetView v =>
      {| m_renderType := m_renderType w; m_size := m_size w;
         m_doneRendering := m_doneRendering w; m_pixmap := m_pixmap w;
         m_debugLabel := m_debugLabel w; m_view := v |}
  | DrawPoint p c =>
      {| m_renderType := m_renderType w; m_size := m_size w;
         m_doneRendering := m_doneRendering w; m_pixmap := <[p := c]> (m_pixmap w);
         m_debugLabel := m_debugLabel w; m_view := m_view w |}
  | ResizeLabel | Cout _ | Launch | EmitRendering | EmitDoneRendering | Update => w
  end.

Definition apply_effects (w : MandelbrotWidget) (es : list Effect) : MandelbrotWidget :=
  foldl apply_effect w es.

Definition sets_done (e : Effect) : bool :=
  match e with SetDoneRendering _ => true | _ => false end.

Definition sets_text (e : Effect) : bool :=
  match e with SetText _ => true | _ => false end.

(** ** The three strategies *)

(** What [boost::compute::program_build_failure] carries. *)
Record BuildFailure := {
  build_log : string;
  what : string;
  error_code : Z;
  error_string : string
}.

(** How the OpenCL run inside the [try] block ends: normally, with the
    [program_build_failure] the handler names, or with another exception of
    the OpenCL layer (an [opencl_error] with its code). *)
Inductive DeviceRun :=
  | DeviceOk
  | ProgramBuildFailure (f : BuildFailure)
  | OpenCLError (code : Z).

(** A build failure with sample diagnostics. *)
Definition sample_failure : BuildFailure :=
  {| build_log := "error: use of undeclared identifier";
     what := "Build Program Failure";
     error_code := -11;
     error_string := "Build Program Failure" |}.

(** An exception other than a build failure leaves the [try] block
    uncaught. *)
Definition escapes_handler (rt : RenderType) (dev : DeviceRun) : bool :=
  match rt, dev with
  | Gpu, OpenCLError _ => true
  | _, _ => false
  end.

(** What the handler of a build failure writes to [std::cout]. *)
Definition diagnostics (rt : RenderType) (dev : DeviceRun) : list Effect :=
  match rt, dev with
  | Gpu, ProgramBuildFailure f =>
      [Cout (PrintString (build_log f)); Cout (PrintString (what f));
       Cout (PrintInt (error_code f)); Cout (PrintString (error_string f))]
  | _, _ => []
  end.

Section Strategies.
Context `{L : Libm}.

(** [for (int i = 0; i < points.size(); ++i) results[i] = calculateMandelbrot(points[i]);] *)
Definition evaluate_sequential (points : list complex) (results : list Z) : list Z :=
  foldl (fun results i =>
           match points !! i with
           | Some p => <[i := calculateMandelbrot p]> results
           | None => results
           end)
        results (seq 0 (length points)).

(** The [if]/[else if] chain between [timer.start()] and
    [timer.durationElapsed()]: the new [results] and what was printed. *)
Definition evaluate (rt : RenderType) (dev : DeviceRun)
    (points : list complex) (results : list Z) : Run (list Z * list Effect) :=
  match rt with
  | CpuSingleThread => mret (evaluate_sequential points results, [])
  | CpuMultiThread => mret (calculateMandelbrot <$> points, [])
  | Gpu =>
      match dev with
      | DeviceOk =>
          let results_compute := calculateMandelbrotCompute <$> points in
          (* compute::copy(results_compute.begin(), results_compute.end(), results.begin()) *)
          mret (results_compute ++ drop (length results_compute) results, [])
      | ProgramBuildFailure f =>
          mret (results,
                [Cout (PrintString (build_log f)); Cout (PrintString (what f));
                 Cout (PrintInt (error_code f)); Cout (PrintString (error_string f))])
      | OpenCLError code => Fail (Uncaught code)
      end
  end.

(** The count a strategy stores for the sample [p]. *)
Definition stored_count (rt : RenderType) (dev : DeviceRun) (p : complex) : Z :=
  match rt, dev with
  | Gpu, DeviceOk => calculateMandelbrotCompute p
  | Gpu, _ => 0
  | _, _ => calculateMandelbrot p
  end.

End Strategies.

(** ** Colour mapping *)

(** [static_cast<int>(255 / count / 4)] *)
Definition shade4 (count : Z) : Run Z :=
  q ← int_div 255 count; mret (Z.quot q 4).

(** [static_cast<int>(255 / count / 0.8)] *)
Definition shade08 (count : Z) : Run Z :=
  q ← int_div 255 count; mret (to_int (of_int q / 0.8)).

(** The pen the paint loop selects for one result. *)
Definition pen_color (rt : RenderType) (count : Z) : Run QColor :=
  if count =? 0 then mret black
  else
    match rt with
    | CpuSingleThread =>
        r ← shade4 count; g ← shade08 count; b ← shade08 count;
        mret (rgb (255 - Z.min r 255) (255 - Z.min (g + 50) 255) (255 - Z.min (b + 50) 255))
    | CpuMultiThread =>
        r ← shade08 count; g ← shade4 count; b ← shade08 count;
        mret (rgb (255 - Z.min (r + 50) 255) (255 - Z.min (g + 50) 255) (255 - Z.min (b + 50) 255))
    | Gpu =>
        r ← shade08 count; g ← shade08 count; b ← shade4 count;
        mret (rgb (255 - Z.min (r + 50) 255) (255 - Z.min (g + 50) 255) (255 - Z.min (b + 50) 255))
    end.

(** The pen of a result, once the guard [results[i] == 0] is known to keep
    the division safe. *)
Definition color_of (rt : RenderType) (count : Z) : QColor :=
  match pen_color rt count with
  | Done c => c
  | Fail _ => black
  end.

(** [for (int i = 0; i < results.size(); ++i) { ...; painter.drawPoint(pixels[i]); }] *)
Definition paint (rt : RenderType) (pixels : list QPoint) (results : list Z)
  : Run (list Effect) :=
  for_each (seq 0 (length results)) (fun i drawn =>
    match results !! i, pixels !! i with
    | Some r, Some p => c ← pen_color rt r; mret (drawn ++ [DrawPoint p c])
    | _, _ => mret drawn
    end) [].

(** The [drawPoint] calls of the paint loop. *)
Definition drawn_points (rt : RenderType) (pixels : list QPoint) (results : list Z)
    (indices : list nat) : list Effect :=
  omap (fun i =>
          match results !! i, pixels !! i with
          | Some r, Some p => Some (DrawPoint p (color_of rt r))
          | _, _ => None
          end) indices.

(** ** The render session *)

(** What the job reads from outside the widget. *)
Record Env := {
  device : DeviceRun;         (* how the OpenCL run ends *)
  device_name : string;       (* compute::system::default_device().name() *)
  maxThreadCount : Z;         (* QThreadPool::globalInstance()->maxThreadCount() *)
  elapsed : Z                 (* timer.durationElapsed(), in nanoseconds *)
}.

(** The job's local vectors and its effects. *)
Record JobRun := {
  job_pixels : list QPoint;
  job_points : list complex;
  job_results : list Z;
  job_effects : list Effect
}.

(** An environment for examples: eight worker threads, a render of 1.5 ms;
    [dev] says how the OpenCL run ends. *)
Definition sample_env (dev : DeviceRun) : Env :=
  {| device := dev; device_name := "OpenCL device";
     maxThreadCount := 8; elapsed := 1500000 |}.

Section Session.
Context `{L : Libm}.

(** The lambda that [rerender] hands to [QtConcurrent::run]. *)
Definition render_job (env : Env) (w : MandelbrotWidget) : Run JobRun :=
  '(pixels, points) ← generateGrid (m_size w) (m_view w);
  let results := replicate (length points) 0 in
  '(results, printed) ← evaluate (m_renderType w) (device env) points results;
  let timeText :=
    match m_renderType w with
    | CpuSingleThread => SingleThreadedCpu
    | CpuMultiThread => MultiThreadedCpu (maxThreadCount env)
    | Gpu => DeviceName (device_name env)
    end in
  drawn ← paint (m_renderType w) pixels results;
  mret {| job_pixels := pixels; job_points := points; job_results := results;
          job_effects :=
            printed
            ++ [SetText (Timing timeText (m_size w) (elapsed env)); ResizeLabel]
            ++ drawn
            ++ [SetDoneRendering true; EmitDoneRendering; Update] |}.

(** The effects of the job up to, and without, [m_doneRendering = true]. *)
Definition published (env : Env) (w : MandelbrotWidget) : list Effect :=
  let results :=
    stored_count (m_renderType w) (device env)
      <$> grid_points (m_size w) (m_view w) in
  diagnostics (m_renderType w) (device env)
  ++ [SetText (Timing match m_renderType w with
                      | CpuSingleThread => SingleThreadedCpu
                      | CpuMultiThread => MultiThreadedCpu (maxThreadCount env)
                      | Gpu => DeviceName (device_name env)
                      end (m_size w) (elapsed env));
      ResizeLabel]
  ++ drawn_points (m_renderType w) (grid_pixels (m_size w)) results
       (seq 0 (length results)).

End Session.

(** The part of [rerender] that runs in the caller's thread. *)
Definition rerender : list Effect :=
  [SetDoneRendering false; SetText NoText; Launch; EmitRendering; Update].

(** [void setView(FractalView view)] *)
Definition setView (view : FractalView) : list Effect := [SetView view].

(** [bool rendering() const] *)
Definition rendering (w : MandelbrotWidget) : bool := negb (m_doneRendering w).

(** What [paintEvent] puts on the screen. *)
Inductive Painted :=
  | BaseFill
  | Pixmap (image : gmap (Z * Z) QColor) (label_box : bool).

Definition paintEvent (w : MandelbrotWidget) : Painted :=
  if m_doneRendering w
  then Pixmap (m_pixmap w)
              (match m_debugLabel w with NoText => false | Timing _ _ _ => true end)
  else BaseFill.

(** The constructor, up to its call of [rerender]: [m_size] is nine tenths of
    the smaller side of the screen. *)
Definition new_widget (renderType : RenderType) (screen_width screen_height : Z)
  : MandelbrotWidget :=
  {| m_renderType := renderType;
     m_size := to_int (of_int (Z.min screen_width screen_height) * 0.9);
     m_doneRendering := false;
     m_pixmap := ∅;
     m_debugLabel := NoText;
     m_view := EntireSet |}.

(** ** The device kernel's orbit *)

(** One pass of the device loop: [newzc] from [zSquaredPlusC]. *)
Definition compute_step (c z : complex) : complex :=
  Complex (real z * real z - imag z * imag z + real c)%float
          (2 * real z * imag z + imag c)%float.

Fixpoint compute_orbit (c : complex) (n : nat) : complex :=
  match n with
  | O => c
  | S k => compute_step c (compute_orbit c k)
  end.

(** The test [(z.x * z.x) + (z.y * z.y) > 4] of the device loop. *)
Definition compute_escaped (z : complex) : bool :=
  (4 <? real z * real z + imag z * imag z)%float.

(** Whether a pixel lies in the viewport of a widget of the given size. *)
Definition in_viewport (size : Z) (q : QPoint) : Prop :=
  0 ≤ q.1 < size ∧ 0 ≤ q.2 < size.

(** A check of [f] on the [n] integers from [lo] on. *)
Fixpoint all_from (f : Z → bool) (lo : Z) (n : nat) : bool :=
  match n with
  | O => true
  | S n' => f lo && all_from f (lo + 1) n'
  end.

(** ** A render from request to completion *)

Definition sets_view (e : Effect) : bool :=
  match e with SetView _ => true | _ => false end.

Section Rendered.
Context `{L : Libm}.

(** The widget after [rerender()] and after the job it launched has run:
    when the job ends in an uncaught exception its effects never happen. *)
Definition rendered (env : Env) (w : MandelbrotWidget) : MandelbrotWidget :=
  match render_job env (apply_effects w rerender) with
  | Done run => apply_effects (apply_effects w rerender) (job_effects run)
  | Fail _ => apply_effects w rerender
  end.

End Rendered.

(** ** The main window *)

(** The three widgets [MainWindow] owns, by the member that holds them. *)
Inductive Member := SingleThreadWidget | MultiThreadWidget | ComputeWidget.

#[export] Instance Member_eq_dec : EqDecision Member.
Proof. solve_decision. Defined.

(** How far the constructor of [MainWindow] has come once it has built the
    three widgets: the [connect] of a widget's [doneRendering] to
    [updateWidgets] that it makes next (the last three statements of the
    constructor), or that it has returned.  [main] shows the window and
    enters the event loop after the constructor: until then no click is
    handled and no queued signal is delivered, while the jobs the widgets'
    constructors launched run in the threads of the pool. *)
Inductive ConstructorPoint :=
  | ConnectsSingleThread  (* next: connect(m_singleThread, &doneRendering, ...) *)
  | ConnectsMultiThread   (* next: connect(m_multiThread, &doneRendering, ...) *)
  | ConnectsCompute       (* next: connect(m_compute, &doneRendering, ...) *)
  | Returned.             (* the constructor is over, a.exec() runs *)

(** Whether [doneRendering] of the widget [m] has a receiver. *)
Definition doneRendering_connected (point : ConstructorPoint) (m : Member) : bool :=
  match point, m with
  | ConnectsSingleThread, _ => false
  | ConnectsMultiThread, SingleThreadWidget => true
  | ConnectsMultiThread, _ => false
  | ConnectsCompute, ComputeWidget => false
  | ConnectsCompute, _ => true
  | Returned, _ => true
  end.

(** [MainWindow] with the two controls its handlers write, the jobs handed
    to the thread pool of [rerender] and not yet run (by the widget that
    launched them), and the [doneRendering] emissions not yet delivered:
    the jobs emit in a worker thread, so the slot runs later in the window's
    thread, once per emission that found the signal connected. *)
Record MainWindow := {
  m_singleThread : MandelbrotWidget;
  m_multiThread : MandelbrotWidget;
  m_compute : MandelbrotWidget;
  renderBtn_enabled : bool;       (* renderBtn->isEnabled() *)
  progress_value : Z;             (* progress->value() *)
  thread_pool : list Member;
  queued_signals : nat;
  constructor_at : ConstructorPoint
}.

Definition widget_of (mw : MainWindow) (m : Member) : MandelbrotWidget :=
  match m with
  | SingleThreadWidget => m_singleThread mw
  | MultiThreadWidget => m_multiThread mw
  | ComputeWidget => m_compute mw
  end.

(** The jobs a method launches and the [doneRendering] signals it emits. *)
Fixpoint launches (es : list Effect) : nat :=
  match es with
  | [] => 0
  | Launch :: es' => S (launches es')
  | _ :: es' => launches es'
  end.

Fixpoint emissions (es : list Effect) : nat :=
  match es with
  | [] => 0
  | EmitDoneRendering :: es' => S (emissions es')
  | _ :: es' => emissions es'
  end.

(** A method of the widget [m] runs, with the effects [es].  A
    [doneRendering] it emits is queued for [updateWidgets] when the signal
    of [m] is connected, and has no receiver and is lost when it is not. *)
Definition call (m : Member) (es : list Effect) (mw : MainWindow) : MainWindow :=
  {| m_singleThread :=
       match m with
       | SingleThreadWidget => apply_effects (m_singleThread mw) es
       | _ => m_singleThread mw
       end;
     m_multiThread :=
       match m with
       | MultiThreadWidget => apply_effects (m_multiThread mw) es
       | _ => m_multiThread mw
       end;
     m_compute :=
       match m with
       | ComputeWidget => apply_effects (m_compute mw) es
       | _ => m_compute mw
       end;
     renderBtn_enabled := renderBtn_enabled mw;
     progress_value := progress_value mw;
     thread_pool := thread_pool mw ++ replicate (launches es) m;
     queued_signals :=
       if doneRendering_connected (constructor_at mw) m
       then queued_signals mw + emissions es
       else queued_signals mw;
     constructor_at := constructor_at mw |}.

(** The window when its constructor has built the widgets and is about to
    connect [doneRendering]: the progress bar at 0, the button disabled, the
    three widgets built for the screen, each with the job its own
    constructor launched.  A job that has already run by then is a
    [JobRuns] event that comes before the [connect]s. *)
Definition new_main_window (screen_width screen_height : Z) : MainWindow :=
  {| m_singleThread :=
       apply_effects (new_widget CpuSingleThread screen_width screen_height) rerender;
     m_multiThread :=
       apply_effects (new_widget CpuMultiThread screen_width screen_height) rerender;
     m_compute := apply_effects (new_widget Gpu screen_width screen_height) rerender;
     renderBtn_enabled := false;
     progress_value := 0;
     thread_pool := [SingleThreadWidget; MultiThreadWidget; ComputeWidget];
     queued_signals := 0;
     constructor_at := ConnectsSingleThread |}.

(** The constructor makes its next [connect], or returns after the last. *)
Definition constructor_connects (mw : MainWindow) : MainWindow :=
  {| m_singleThread := m_singleThread mw;
     m_multiThread := m_multiThread mw;
     m_compute := m_compute mw;
     renderBtn_enabled := renderBtn_enabled mw;
     progress_value := progress_value mw;
     thread_pool := thread_pool mw;
     queued_signals := queued_signals mw;
     constructor_at :=
       match constructor_at mw with
       | ConnectsSingleThread => ConnectsMultiThread
       | ConnectsMultiThread => ConnectsCompute
       | ConnectsCompute | Returned => Returned
       end |}.

(** The event loop runs once the constructor has returned. *)
Definition in_event_loop (mw : MainWindow) : bool :=
  match constructor_at mw with
  | Returned => true
  | _ => false
  end.

(** The slot of [fullSet]'s and of [spike]'s [clicked(bool)]. *)
Definition radio_clicked (view : FractalView) (checked : bool) (mw : MainWindow)
  : MainWindow :=
  if negb checked then mw
  else call ComputeWidget (setView view)
         (call MultiThreadWidget (setView view)
            (call SingleThreadWidget (setView view) mw)).

Definition fullSet_clicked : bool → MainWindow → MainWindow :=
  radio_clicked EntireSet.

Definition spike_clicked : bool → MainWindow → MainWindow :=
  radio_clicked LeftSpike.

(** The slot of [renderBtn]'s [clicked]. *)
Definition renderBtn_clicked (mw : MainWindow) : MainWindow :=
  call ComputeWidget rerender
    (call MultiThreadWidget rerender
       (call SingleThreadWidget rerender
          {| m_singleThread := m_singleThread mw;
             m_multiThread := m_multiThread mw;
             m_compute := m_compute mw;
             renderBtn_enabled := false;
             progress_value := progress_value mw;
             thread_pool := thread_pool mw;
             queued_signals := queued_signals mw;
             constructor_at := constructor_at mw |})).

(** The lambda [updateWidgets]. *)
Definition updateWidgets (mw : MainWindow) : MainWindow :=
  let enabled :=
    if rendering (m_singleThread mw) || rendering (m_multiThread mw)
       || rendering (m_compute mw)
    then false else true in
  let progressCount := 3 in
  let progressCount :=
    if rendering (m_singleThread mw) then progressCount - 1 else progressCount in
  let progressCount :=
    if rendering (m_multiThread mw) then progressCount - 1 else progressCount in
  let progressCount :=
    if rendering (m_compute mw) then progressCount - 1 else progressCount in
  {| m_singleThread := m_singleThread mw;
     m_multiThread := m_multiThread mw;
     m_compute := m_compute mw;
     renderBtn_enabled := enabled;
     progress_value := progressCount;
     thread_pool := thread_pool mw;
     queued_signals := queued_signals mw;
     constructor_at := constructor_at mw |}.

(** The pool without the first job of [m], if it holds one. *)
Fixpoint take_job (m : Member) (pool : list Member) : option (list Member) :=
  match pool with
  | [] => None
  | m' :: pool' =>
      if decide (m' = m) then Some pool'
      else match take_job m pool' with
           | Some rest => Some (m' :: rest)
           | None => None
           end
  end.

(** What happens to the window. *)
Inductive Event :=
  | ConstructorConnects            (* the constructor's next connect, or its return *)
  | FullSetClicked (checked : bool)
  | SpikeClicked (checked : bool)
  | RenderBtnPressed               (* a disabled button emits no clicked() *)
  | JobRuns (m : Member) (env : Env) (* a job of the pool runs, as one step *)
  | SignalDelivered.               (* a queued doneRendering reaches the slot *)

Section Window.
Context `{L : Libm}.

(** A job of the widget [m] leaves the pool and runs; an exception it does
    not catch ends it before its first effect. *)
Definition job_runs (m : Member) (env : Env) (mw : MainWindow) : MainWindow :=
  match take_job m (thread_pool mw) with
  | None => mw
  | Some pool' =>
      let mw' :=
        {| m_singleThread := m_singleThread mw;
           m_multiThread := m_multiThread mw;
           m_compute := m_compute mw;
           renderBtn_enabled := renderBtn_enabled mw;
           progress_value := progress_value mw;
           thread_pool := pool';
           queued_signals := queued_signals mw;
           constructor_at := constructor_at mw |} in
      match render_job env (widget_of mw m) with
      | Done run => call m (job_effects run) mw'
      | Fail _ => mw'
      end
  end.

(** A queued [doneRendering] reaches [updateWidgets]. *)
Definition signal_delivered (mw : MainWindow) : MainWindow :=
  match queued_signals mw with
  | O => mw
  | S n =>
      updateWidgets
        {| m_singleThread := m_singleThread mw;
           m_multiThread := m_multiThread mw;
           m_compute := m_compute mw;
           renderBtn_enabled := renderBtn_enabled mw;
           progress_value := progress_value mw;
           thread_pool := thread_pool mw;
           queued_signals := n;
           constructor_at := constructor_at mw |}
  end.

(** The constructor and the jobs run at any time; clicks and queued signals
    are handled by the event loop. *)
Definition step (mw : MainWindow) (ev : Event) : MainWindow :=
  match ev with
  | ConstructorConnects => constructor_connects mw
  | JobRuns m env => job_runs m env mw
  | FullSetClicked checked =>
      if in_event_loop mw then fullSet_clicked checked mw else mw
  | SpikeClicked checked =>
      if in_event_loop mw then spike_clicked checked mw else mw
  | RenderBtnPressed =>
      if in_event_loop mw
      then if renderBtn_enabled mw then renderBtn_clicked mw else mw
      else mw
  | SignalDelivered =>
      if in_event_loop mw then signal_delivered mw else mw
  end.

Definition run_events (mw : MainWindow) (evs : list Event) : MainWindow :=
  foldl step mw evs.

End Window.

(** The number of widgets that are not rendering. *)
Definition finished (mw : MainWindow) : Z :=
  (if rendering (m_singleThread mw) then 0 else 1)
  + (if rendering (m_multiThread mw) then 0 else 1)
  + (if rendering (m_compute mw) then 0 else 1).

(** The controls show the widgets as they are. *)
Definition controls_current (mw : MainWindow) : Prop :=
  progress_value mw = finished mw
  ∧ (renderBtn_enabled mw = true ↔ finished mw = 3).

(** What every state of the window satisfies, for widgets of the given
    size: the widgets keep their render types and their size and agree on
    the view; the pool holds at most one job per widget, and only of widgets
    that are rendering; the button is enabled only when no widget is
    rendering, and only once the constructor has returned. *)
Definition window_invariant (size : Z) (mw : MainWindow) : Prop :=
  (m_renderType (m_singleThread mw) = CpuSingleThread
   ∧ m_renderType (m_multiThread mw) = CpuMultiThread
   ∧ m_renderType (m_compute mw) = Gpu)
  ∧ (∀ m, m_size (widget_of mw m) = size)
  ∧ (∀ m, m_view (widget_of mw m) = m_view (m_singleThread mw))
  ∧ NoDup (thread_pool mw)
  ∧ (∀ m, m ∈ thread_pool mw → rendering (widget_of mw m) = true)
  ∧ (renderBtn_enabled mw = true → ∀ m, rendering (widget_of mw m) = false)
  ∧ (renderBtn_enabled mw = true → constructor_at mw = Returned).

(** The controls are current or will be brought up to date: a signal is
    queued for [updateWidgets], or the event loop runs and either the
    controls are current or a job of a CPU widget, which always emits
    [doneRendering], is still in the pool. *)
Definition settling (mw : MainWindow) : Prop :=
  (0 < queued_signals mw)%nat
  ∨ (constructor_at mw = Returned
     ∧ (controls_current mw ∨ ∃ m, m ∈ thread_pool mw ∧ m ≠ ComputeWidget)).


(** The constructor makes its three [connect]s and returns. *)
Definition constructor_returns : list Event :=
  [ConstructorConnects; ConstructorConnects; ConstructorConnects].

(** A run of all three jobs of a window on a 3 x 4 screen, each signal
    delivered after the jobs. *)
Definition first_round (dev : DeviceRun) : list Event :=
  [JobRuns MultiThreadWidget (sample_env dev);
   JobRuns ComputeWidget (sample_env dev);
   JobRuns SingleThreadWidget (sample_env dev);
   SignalDelivered; SignalDelivered; SignalDelivered].


(** The render type each member is built with. *)
Definition render_type_of (m : Member) : RenderType :=
  match m with
  | SingleThreadWidget => CpuSingleThread
  | MultiThreadWidget => CpuMultiThread
  | ComputeWidget => Gpu
  end.

(** The events of a round of rendering: jobs run, none of them ending in an
    uncaught exception, and signals are delivered; nobody clicks. *)
Definition round_event (ev : Event) : bool :=
  match ev with
  | JobRuns ComputeWidget env => negb (escapes_handler Gpu (device env))
  | JobRuns _ _ | SignalDelivered => true
  | ConstructorConnects | FullSetClicked _ | SpikeClicked _ | RenderBtnPressed => false
  end.

Section Shown.
Context `{L : Libm}.

(** The widget [m] holds the image of [view] as the job run under [env]
    paints it. *)
Definition image_shown (m : Member) (env : Env) (size : Z) (view : FractalView)
    (mw : MainWindow) : Prop :=
  ∀ x y, 0 ≤ x < size → 0 ≤ y < size →
    m_pixmap (widget_of mw m) !! (x, y)
    = Some (color_of (render_type_of m)
              (stored_count (render_type_of m) (device env)
                 (sample_at view x y size))).

End Shown.

(** * Theorems *)

(** ** The kernel *)

Section KernelFacts.
Context `{L : Libm}.

Lemma orbit_step c m :
  cadd (std_pow_complex (orbit c m) 2) c = orbit c (S m).
Proof. reflexivity. Qed.

(** The loop started at step [m] of the orbit: it returns [i + 1] for the
    first [i ≥ m] whose successor escapes, and 0 when none does. *)
Lemma mandelbrot_loop_first_escape c n : ∀ m,
  (∃ i : nat, (m ≤ i < m + n)%nat
     ∧ escaped (orbit c (S i)) = true
     ∧ (∀ j, (m ≤ j < i)%nat → escaped (orbit c (S j)) = false)
     ∧ mandelbrot_loop c (orbit c m) (Z.of_nat m) n = Z.of_nat i + 1)
  ∨ ((∀ j, (m ≤ j < m + n)%nat → escaped (orbit c (S j)) = false)
     ∧ mandelbrot_loop c (orbit c m) (Z.of_nat m) n = 0).
Proof.
  induction n as [|n IH]; intros m.
  - right. split; [intros j Hj; lia | reflexivity].
  - cbn [mandelbrot_loop]. rewrite orbit_step.
    fold (escaped (orbit c (S m))).
    destruct (escaped (orbit c (S m))) eqn:E.
    + left. exists m. repeat split; [lia | lia | assumption | intros j Hj; lia].
    + replace (Z.of_nat m + 1) with (Z.of_nat (S m)) by lia.
      destruct (IH (S m)) as [(i & Hi & Hesc & Hfirst & Hk) | (Hnone & Hk)].
      * left. exists i. repeat split; [lia | lia | assumption | | assumption].
        intros j Hj. destruct (decide (j = m)) as [-> | Hne]; [assumption|].
        apply Hfirst. lia.
      * right. split; [|assumption].
        intros j Hj. destruct (decide (j = m)) as [-> | Hne]; [assumption|].
        apply Hnone. lia.
Qed.

Lemma mandelbrot_loop_range c : ∀ n z i,
  0 ≤ i →
  mandelbrot_loop c z i n = 0
  ∨ i < mandelbrot_loop c z i n ≤ i + Z.of_nat n.
Proof.
  induction n as [|n IH]; intros z i Hi; cbn [mandelbrot_loop].
  - left; reflexivity.
  - destruct (_ <? _)%float; [right; lia|].
    destruct (IH (cadd (std_pow_complex z 2) c) (i + 1)) as [-> | ?]; [lia | by left | right; lia].
Qed.

End KernelFacts.

(** C2: [calculateMandelbrot] returns 1 when [std::abs(c) > 2]; otherwise it
    returns [i + 1] for the first step [i < 100] at which the squared
    magnitude of z_{i+1} exceeds 4, and 0 when no step within 100 does.  The
    result always lies in 0..100. *)
Theorem calculateMandelbrot_spec `{L : Libm} (c : complex) :
  0 ≤ calculateMandelbrot c ≤ 100
  ∧ if (2 <? std_abs c)%float
    then calculateMandelbrot c = 1
    else (∃ i : nat, (i < 100)%nat
            ∧ escaped (orbit c (S i)) = true
            ∧ (∀ j, (j < i)%nat → escaped (orbit c (S j)) = false)
            ∧ calculateMandelbrot c = Z.of_nat i + 1)
         ∨ ((∀ i, (i < 100)%nat → escaped (orbit c (S i)) = false)
            ∧ calculateMandelbrot c = 0).
Proof.
  unfold calculateMandelbrot.
  destruct (2 <? std_abs c)%float eqn:Habs; [split; [lia | done]|].
  split.
  - destruct (mandelbrot_loop_range c 100 c 0) as [-> | ?]; lia.
  - destruct (mandelbrot_loop_first_escape c 100 0)
      as [(i & Hi & Hesc & Hfirst & Hk) | (Hnone & Hk)]; cbn [orbit] in Hk;
      change (Z.of_nat 0) with 0 in Hk.
    + left. exists i. repeat split; [lia | done | | done].
      intros j Hj. apply Hfirst. lia.
    + right. split; [|done]. intros i Hi. apply Hnone. lia.
Qed.

Lemma compute_loop_origin : ∀ n i, compute_loop origin origin i n = 0.
Proof. induction n as [|n IH]; intros i; [reflexivity | apply IH]. Qed.

Lemma mandelbrot_loop_origin `{L : Libm} :
  std_pow_complex origin 2 = origin →
  std_pow 0 2 = 0%float →
  ∀ n i, mandelbrot_loop origin origin i n = 0.
Proof.
  intros Hcpow Hpow. induction n as [|n IH]; intros i; [reflexivity|].
  cbn [mandelbrot_loop]. rewrite Hcpow.
  change (cadd origin origin) with origin. cbn [real imag origin].
  rewrite Hpow. change (4 <? 0 + 0)%float with false. apply IH.
Qed.

(** C6: the kernel maps the origin to 0.  The host kernel does so for every
    library in which the magnitude of zero does not exceed 2 and the square
    of zero is zero; the device kernel does so outright. *)
Theorem kernel_origin `{L : Libm} :
  (2 <? std_abs origin)%float = false →
  std_pow_complex origin 2 = origin →
  std_pow 0 2 = 0%float →
  calculateMandelbrot origin = 0
  ∧ (∀ n : nat, (n ≤ 100)%nat → escaped (orbit origin n) = false)
  ∧ calculateMandelbrotCompute origin = 0.
Proof.
  intros Habs Hcpow Hpow. split; [|split].
  - unfold calculateMandelbrot. rewrite Habs.
    by apply mandelbrot_loop_origin.
  - intros n _.
    assert (Horb : orbit origin n = origin).
    { induction n as [|n IH]; [reflexivity|]. cbn [orbit]. by rewrite IH, Hcpow. }
    rewrite Horb. unfold escaped. cbn [real imag origin]. by rewrite Hpow.
  - unfold calculateMandelbrotCompute.
    change (2 <? PrimFloat.sqrt (real origin * real origin + imag origin * imag origin))%float
      with false.
    apply compute_loop_origin.
Qed.

Lemma kernel_origin_textbook :
  @calculateMandelbrot textbook_libm origin = 0
  ∧ (∀ n : nat, (n ≤ 100)%nat → @escaped textbook_libm (@orbit textbook_libm origin n) = false)
  ∧ calculateMandelbrotCompute origin = 0.
Proof. apply (@kernel_origin textbook_libm); reflexivity. Defined.

(** ** The sample grid *)

Lemma sample_done view row col size :
  size ≠ 0 → sample view row col size = Done (sample_at view row col size).
Proof.
  intros Hsize. unfold sample, sample_at, div_by.
  destruct (Z.eqb_spec size 0) as [?|_]; [done|]. by destruct view.
Qed.

(** One pass of the inner loop appends one row. *)
Lemma inner_loop_row view row size (cols : list Z) : ∀ pixels points,
  (cols = [] ∨ size ≠ 0) →
  for_each cols (fun col '(pixels, points) =>
      p ← sample view row col size;
      mret (pixels ++ [(row, col)], points ++ [p])) (pixels, points)
  = Done (pixels ++ ((λ col, (row, col)) <$> cols),
          points ++ ((λ col, sample_at view row col size) <$> cols)).
Proof.
  induction cols as [|col cols IH]; intros pixels points Hsize.
  - cbn. by rewrite !app_nil_r.
  - destruct Hsize as [?|Hsize]; [done|].
    cbn [for_each]. rewrite sample_done by done. cbn.
    rewrite IH by (by right). by rewrite <- !app_assoc.
Qed.

Lemma outer_loop_rows view size (cols rows : list Z) : ∀ pixels points,
  (cols = [] ∨ size ≠ 0) →
  for_each rows (fun row =>
    for_each cols (fun col '(pixels, points) =>
      p ← sample view row col size;
      mret (pixels ++ [(row, col)], points ++ [p]))) (pixels, points)
  = Done (pixels ++ (row ← rows; (λ col, (row, col)) <$> cols),
          points ++ (row ← rows; (λ col, sample_at view row col size) <$> cols)).
Proof.
  induction rows as [|row rows IH]; intros pixels points Hsize.
  - cbn. by rewrite !app_nil_r.
  - cbn [for_each]. rewrite inner_loop_row by done. cbn.
    rewrite IH by done. by rewrite <- !app_assoc.
Qed.

(** The generator never fails, whatever the size. *)
Lemma generateGrid_done size view :
  generateGrid size view = Done (grid_pixels size, grid_points size view).
Proof.
  unfold generateGrid. rewrite outer_loop_rows; [done|].
  destruct (decide (size = 0)) as [-> | ?]; [by left | by right].
Qed.

(** Lookup in a list of rows of equal length. *)
Lemma lookup_rows {A B : Type} (f : A → list B) (n : nat) (l : list A) :
  (∀ y, length (f y) = n) →
  ∀ (i j : nat) (x : A), l !! i = Some x → (j < n)%nat →
  (l ≫= f) !! (i * n + j)%nat = f x !! j.
Proof.
  intros Hlen. induction l as [|y l IH]; intros i j x Hi Hj; [done|].
  cbn. destruct i as [|i].
  - injection Hi as ->. rewrite lookup_app_l by (rewrite Hlen; lia). done.
  - rewrite lookup_app_r by (rewrite Hlen; lia). rewrite Hlen.
    replace (S i * n + j - n)%nat with (i * n + j)%nat by lia.
    by apply IH.
Qed.

Lemma length_rows {A B : Type} (f : A → list B) (n : nat) (l : list A) :
  (∀ y, length (f y) = n) → length (l ≫= f) = (length l * n)%nat.
Proof.
  intros Hlen. induction l as [|y l IH]; [done|].
  cbn. rewrite length_app, Hlen, IH. lia.
Qed.

Lemma grid_lengths size view :
  0 ≤ size →
  Z.of_nat (length (grid_pixels size)) = size * size
  ∧ Z.of_nat (length (grid_points size view)) = size * size.
Proof.
  intros Hsize. unfold grid_pixels, grid_points.
  rewrite !(length_rows _ (Z.to_nat size))
    by (intros; by rewrite length_fmap, length_seqZ).
  rewrite length_seqZ. lia.
Qed.

Lemma grid_lookup size view row col :
  0 ≤ row < size → 0 ≤ col < size →
  grid_pixels size !! Z.to_nat (row * size + col) = Some (row, col)
  ∧ grid_points size view !! Z.to_nat (row * size + col)
    = Some (sample_at view row col size).
Proof.
  intros Hrow Hcol. unfold grid_pixels, grid_points.
  replace (Z.to_nat (row * size + col))
    with (Z.to_nat row * Z.to_nat size + Z.to_nat col)%nat by lia.
  assert (Hr : seqZ 0 size !! Z.to_nat row = Some row).
  { rewrite lookup_seqZ. lia. }
  assert (Hc : seqZ 0 size !! Z.to_nat col = Some col).
  { rewrite lookup_seqZ. lia. }
  split.
  - rewrite (lookup_rows _ (Z.to_nat size)) with (x := row);
      [by rewrite list_lookup_fmap, Hc | | done | lia].
    intros. by rewrite length_fmap, length_seqZ.
  - rewrite (lookup_rows _ (Z.to_nat size)) with (x := row);
      [by rewrite list_lookup_fmap, Hc | | done | lia].
    intros. by rewrite length_fmap, length_seqZ.
Qed.

(** *** Conversion of a viewport size to [double] *)

(** A positive [int] converts to a finite, non-zero double; hence a zero
    numerator divided by the viewport size is zero. *)
Lemma digits2_pos_iter p q :
  digits2_pos (Pos.iter xO p q) = (digits2_pos p + q)%positive.
Proof.
  induction q as [|q IH] using Pos.peano_ind.
  - cbn. lia.
  - rewrite Pos.iter_succ. cbn [digits2_pos]. rewrite IH. lia.
Qed.

Lemma digits2_pos_bound p : ∀ k, 0 ≤ k → Z.pos p < 2 ^ k → Z.pos (digits2_pos p) ≤ k.
Proof.
  induction p as [p IH|p IH|]; intros k Hk Hp; cbn [digits2_pos].
  - destruct (decide (k = 0)) as [-> | Hne]; [cbn in Hp; lia|].
    replace k with (Z.succ (k - 1)) in Hp by lia. rewrite Z.pow_succ_r in Hp by lia.
    specialize (IH (k - 1)). lia.
  - destruct (decide (k = 0)) as [-> | Hne]; [cbn in Hp; lia|].
    replace k with (Z.succ (k - 1)) in Hp by lia. rewrite Z.pow_succ_r in Hp by lia.
    specialize (IH (k - 1)). lia.
  - destruct (decide (k = 0)) as [-> | Hne]; [cbn in Hp; lia | lia].
Qed.

Lemma binary_round_aux_canonical s m e :
  digits2_pos m = 53%positive → -52 ≤ e ≤ 0 →
  binary_round_aux prec emax s (Z.pos m) e loc_Exact = S754_finite s m e.
Proof.
  intros Hd He. unfold binary_round_aux, shr_fexp, Zdigits2. cbn [shr_record_of_loc].
  rewrite Hd. unfold fexp, emin, prec, emax.
  replace (Z.max (53 + e - 53) (3 - 1024 - 53) - e) with 0 by lia.
  cbn [shr shr_m loc_of_shr_record round_nearest_even Zdigits2 shr_record_of_loc].
  rewrite Hd.
  replace (Z.max (53 + e - 53) (3 - 1024 - 53) - e) with 0 by lia.
  cbn [shr shr_m].
  destruct (Z.leb_spec e (1024 - 53)); [done | lia].
Qed.

Lemma binary_round_small p :
  Z.pos (digits2_pos p) ≤ 53 →
  ∃ m e, binary_round prec emax false p 0 = S754_finite false m e.
Proof.
  intros Hd. unfold binary_round, shl_align, fexp, emin, prec, emax.
  replace (Z.max (Z.pos (digits2_pos p) + 0 - 53) (3 - 1024 - 53) - 0)
    with (Z.pos (digits2_pos p) - 53) by lia.
  replace (Z.max (Z.pos (digits2_pos p) + 0 - 53) (3 - 1024 - 53))
    with (Z.pos (digits2_pos p) - 53) by lia.
  destruct (Z.pos (digits2_pos p) - 53) as [|q|q] eqn:E; [|lia|].
  - eexists _, _. apply binary_round_aux_canonical; [lia | lia].
  - eexists _, _. apply binary_round_aux_canonical; [|lia].
    rewrite digits2_pos_iter. lia.
Qed.

Lemma of_int_finite n :
  1 ≤ n ≤ 2147483647 → ∃ m e, Prim2SF (of_int n) = S754_finite false m e.
Proof.
  intros Hn. unfold of_int. destruct (Z.ltb_spec n 0); [lia|].
  rewrite of_uint63_spec, Uint63.of_Z_spec.
  rewrite Z.mod_small by (change wB with (2 ^ 63); lia).
  destruct n as [|p|p]; [lia| |lia]. cbn [binary_normalize].
  apply binary_round_small.
  etransitivity; [apply (digits2_pos_bound p 31); lia | lia].
Qed.

Lemma zero_div_of_int n :
  1 ≤ n ≤ 2147483647 → (0 / of_int n)%float = 0%float.
Proof.
  intros Hn. destruct (of_int_finite n Hn) as (m & e & Hfin).
  rewrite <- (SF2Prim_Prim2SF (0 / of_int n)), FloatAxioms.div_spec, Hfin. reflexivity.
Qed.

Lemma grid_at_lookup size view row col :
  0 ≤ row < size → 0 ≤ col < size →
  grid_at size view (row * size + col) = Some ((row, col), sample_at view row col size).
Proof.
  intros Hrow Hcol. unfold grid_at. rewrite generateGrid_done.
  destruct (grid_lookup size view row col Hrow Hcol) as [-> ->]. done.
Qed.

(** C5: for a viewport size N ≥ 1 (an [int]) the generator yields N² pixels
    and N² samples; entry [row * N + col] is the pixel [(row, col)] with the
    sample [-2.5 + 4.0*row/N, -2.0 + 4.0*col/N] for the entire set and
    [-1.7 + 0.25*row/N, -0.125 + 0.25*col/N] for the zoomed view; entry 0 of
    the entire set is [((0,0), (-2.5,-2.0))], and entry 1 for N = 4 is
    [((0,1), (-2.5,-1.0))]. *)
Theorem generateGrid_row_major (N : Z) :
  1 ≤ N ≤ 2147483647 →
  (∀ view, grid_length N view = Some (N * N, N * N))
  ∧ (∀ row col, 0 ≤ row < N → 0 ≤ col < N →
       grid_at N EntireSet (row * N + col)
       = Some ((row, col),
               Complex (-2.5 + 4.0 * of_int row / of_int N)
                       (-2.0 + 4.0 * of_int col / of_int N))
       ∧ grid_at N LeftSpike (row * N + col)
         = Some ((row, col),
                 Complex (-1.7 + 0.25 * of_int row / of_int N)
                         (-0.125 + 0.25 * of_int col / of_int N)))
  ∧ grid_at N EntireSet 0 = Some ((0, 0), Complex (-2.5) (-2.0))
  ∧ grid_at 4 EntireSet 1 = Some ((0, 1), Complex (-2.5) (-1.0)).
Proof.
  intros HN. split; [|split; [|split]].
  - intros view. unfold grid_length. rewrite generateGrid_done.
    destruct (grid_lengths N view) as [-> ->]; [lia | done].
  - intros row col Hrow Hcol. split; by apply grid_at_lookup.
  - replace 0 with (0 * N + 0) at 1 by lia.
    rewrite grid_at_lookup by lia. unfold sample_at.
    change (4.0 * of_int 0)%float with 0%float.
    rewrite zero_div_of_int by done. reflexivity.
  - vm_compute. reflexivity.
Qed.

Lemma generateGrid_row_major_4 :
  (∀ view, grid_length 4 view = Some (4 * 4, 4 * 4))
  ∧ (∀ row col, 0 ≤ row < 4 → 0 ≤ col < 4 →
       grid_at 4 EntireSet (row * 4 + col)
       = Some ((row, col),
               Complex (-2.5 + 4.0 * of_int row / of_int 4)
                       (-2.0 + 4.0 * of_int col / of_int 4))
       ∧ grid_at 4 LeftSpike (row * 4 + col)
         = Some ((row, col),
                 Complex (-1.7 + 0.25 * of_int row / of_int 4)
                         (-0.125 + 0.25 * of_int col / of_int 4)))
  ∧ grid_at 4 EntireSet 0 = Some ((0, 0), Complex (-2.5) (-2.0))
  ∧ grid_at 4 EntireSet 1 = Some ((0, 1), Complex (-2.5) (-1.0)).
Proof. apply (generateGrid_row_major 4). lia. Defined.

(** ** The strategies *)

Section StrategyFacts.
Context `{L : Libm}.

(** After [k] iterations the sequential loop has written the first [k]
    results and left the rest untouched. *)
Lemma evaluate_sequential_prefix (points : list complex) (results : list Z) :
  length results = length points →
  ∀ k, (k ≤ length points)%nat →
  foldl (fun results i =>
           match points !! i with
           | Some p => <[i := calculateMandelbrot p]> results
           | None => results
           end)
        results (seq 0 k)
  = (calculateMandelbrot <$> take k points) ++ drop k results.
Proof.
  intros Hlen. induction k as [|k IH]; intros Hk; [done|].
  rewrite seq_S, foldl_snoc, IH by lia. cbn [Nat.add].
  destruct (lookup_lt_is_Some_2 points k) as [p Hp]; [lia|].
  destruct (lookup_lt_is_Some_2 results k) as [r Hr]; [lia|].
  rewrite Hp, (take_S_r _ _ _ Hp), fmap_app, (drop_S _ _ _ Hr).
  rewrite insert_app_r_alt by (rewrite length_fmap, length_take; lia).
  rewrite length_fmap, length_take.
  replace (k - k `min` length points)%nat with 0%nat by lia.
  cbn. by rewrite <- app_assoc.
Qed.

Lemma evaluate_sequential_map (points : list complex) (results : list Z) :
  length results = length points →
  evaluate_sequential points results = calculateMandelbrot <$> points.
Proof.
  intros Hlen. unfold evaluate_sequential.
  rewrite evaluate_sequential_prefix by (done || lia).
  rewrite firstn_all, drop_ge by lia. by rewrite app_nil_r.
Qed.

Lemma evaluate_done rt dev points :
  escapes_handler rt dev = false →
  evaluate rt dev points (replicate (length points) 0)
  = Done (stored_count rt dev <$> points, diagnostics rt dev).
Proof.
  intros Hcaught. destruct rt; cbn.
  - by rewrite evaluate_sequential_map by apply length_replicate.
  - done.
  - destruct dev as [|f|code]; [| |done]; cbn.
    + rewrite length_fmap, drop_ge by (rewrite length_replicate; lia).
      by rewrite app_nil_r.
    + do 2 f_equal. symmetry. by apply const_fmap.
Qed.

Lemma evaluate_fail rt dev points results :
  escapes_handler rt dev = true →
  ∃ code, evaluate rt dev points results = Fail (Uncaught code).
Proof. destruct rt, dev; try done. intros _. by eexists. Qed.

End StrategyFacts.

(** C4, as the code has it: unless an OpenCL error other than a build
    failure escapes the handler, [evaluate] returns a result vector as long
    as the grid, and entry [i] is the host kernel of sample [i] for the two
    CPU strategies, the device kernel of sample [i] for a device run that
    succeeds, and 0 for a device run whose program fails to build. *)
Theorem evaluate_index_aligned `{L : Libm} (rt : RenderType) (dev : DeviceRun)
    (points : list complex) :
  escapes_handler rt dev = false →
  ∃ results printed,
    evaluate rt dev points (replicate (length points) 0) = Done (results, printed)
    ∧ length results = length points
    ∧ ∀ (i : nat) (p : complex), points !! i = Some p →
        results !! i
        = Some (match rt, dev with
                | Gpu, DeviceOk => calculateMandelbrotCompute p
                | Gpu, _ => 0
                | _, _ => calculateMandelbrot p
                end).
Proof.
  intros Hcaught.
  exists (stored_count rt dev <$> points), (diagnostics rt dev).
  split; [by apply evaluate_done|]. split; [by rewrite length_fmap|].
  intros i p Hp. by rewrite list_lookup_fmap, Hp.
Qed.

Lemma evaluate_index_aligned_single_point :
  ∃ results printed,
    @evaluate textbook_libm CpuMultiThread DeviceOk [Complex (-2.5) (-2.0)]
              (replicate 1 0) = Done (results, printed)
    ∧ length results = 1%nat
    ∧ ∀ (i : nat) (p : complex), [Complex (-2.5) (-2.0)] !! i = Some p →
        results !! i = Some (@calculateMandelbrot textbook_libm p).
Proof.
  apply (@evaluate_index_aligned textbook_libm CpuMultiThread DeviceOk
           [Complex (-2.5) (-2.0)]).
  reflexivity.
Defined.

(** C4 as stated fails on the device strategy: after a build failure the
    entry for the sample (-2.5, -2.0) is 0, while both kernels map that
    sample to 1. *)
Lemma evaluate_build_failure_not_kernel :
  ∃ results printed,
    @evaluate textbook_libm Gpu (ProgramBuildFailure sample_failure)
              [Complex (-2.5) (-2.0)] (replicate 1 0) = Done (results, printed)
    ∧ results !! 0%nat = Some 0
    ∧ @calculateMandelbrot textbook_libm (Complex (-2.5) (-2.0)) = 1
    ∧ calculateMandelbrotCompute (Complex (-2.5) (-2.0)) = 1
    ∧ results !! 0%nat
      ≠ Some (@calculateMandelbrot textbook_libm (Complex (-2.5) (-2.0))).
Proof. eexists _, _. repeat split. done. Qed.



(** ** Colour mapping *)

Lemma int_div_255 (count : Z) :
  count ≠ 0 → int_div 255 count = Done (Z.quot 255 count).
Proof. intros H. unfold int_div. by destruct (Z.eqb_spec count 0). Qed.

Lemma pen_color_done rt count : pen_color rt count = Done (color_of rt count).
Proof.
  unfold color_of, pen_color, shade4, shade08.
  destruct (Z.eqb_spec count 0) as [-> | Hne]; [done|].
  destruct rt; cbn; rewrite !int_div_255 by done; done.
Qed.

Lemma quot_255_bounds count :
  1 ≤ count → 0 ≤ Z.quot (Z.quot 255 count) 4 ≤ 63.
Proof.
  intros Hc. rewrite (Z.quot_div_nonneg 255 count) by lia.
  assert (0 ≤ 255 / count ≤ 255).
  { split; [apply Z.div_pos; lia | apply Z.div_le_upper_bound; nia]. }
  rewrite Z.quot_div_nonneg by lia.
  split; [apply Z.div_pos; lia|].
  apply Z.lt_succ_r, Z.div_lt_upper_bound; lia.
Qed.

(** C9: in each of the three colour mappings a count of 0 gives black, and
    a count in 1..100 gives a colour that is not black: the channel with
    divisor 4 is [255 - min(255/count/4, 255) ≥ 192] for the single-thread
    mapping (red), and [255 - min(255/count/4 + 50, 255) ≥ 142] for the
    multi-thread (green) and device (blue) mappings. *)
Theorem pen_color_black_only_for_zero (rt : RenderType) (count : Z) :
  1 ≤ count ≤ 100 →
  pen_color rt 0 = Done black
  ∧ ∃ c, pen_color rt count = Done c
      ∧ c ≠ black
      ∧ match rt with
        | CpuSingleThread =>
            red c = 255 - Z.min (255 / count / 4) 255 ∧ 192 ≤ red c
        | CpuMultiThread =>
            green c = 255 - Z.min (255 / count / 4 + 50) 255 ∧ 142 ≤ green c
        | Gpu =>
            blue c = 255 - Z.min (255 / count / 4 + 50) 255 ∧ 142 ≤ blue c
        end.
Proof.
  intros Hc. split; [by destruct rt|].
  pose proof (quot_255_bounds count ltac:(lia)) as Hq.
  assert (Hdiv : Z.quot (Z.quot 255 count) 4 = 255 / count / 4).
  { rewrite (Z.quot_div_nonneg 255 count) by lia.
    rewrite Z.quot_div_nonneg; [done | apply Z.div_pos; lia | lia]. }
  unfold pen_color, shade4, shade08.
  destruct (Z.eqb_spec count 0) as [? | _]; [lia|].
  rewrite !int_div_255 by lia.
  destruct rt; cbn; eexists; (split; [reflexivity|]); cbn [red green blue];
    rewrite <- Hdiv; (split; [intros Heq; injection Heq; lia | lia]).
Qed.

Lemma pen_color_black_only_for_zero_7 :
  pen_color CpuSingleThread 0 = Done black
  ∧ ∃ c, pen_color CpuSingleThread 7 = Done c
      ∧ c ≠ black
      ∧ red c = 255 - Z.min (255 / 7 / 4) 255 ∧ 192 ≤ red c.
Proof. apply (pen_color_black_only_for_zero CpuSingleThread 7). lia. Defined.

(** ** The render session *)

Lemma paint_loop rt pixels results (indices : list nat) : ∀ drawn,
  for_each indices (fun i drawn =>
    match results !! i, pixels !! i with
    | Some r, Some p => c ← pen_color rt r; mret (drawn ++ [DrawPoint p c])
    | _, _ => mret drawn
    end) drawn
  = Done (drawn ++ drawn_points rt pixels results indices).
Proof.
  induction indices as [|i indices IH]; intros drawn.
  - cbn. by rewrite app_nil_r.
  - cbn [for_each]. unfold drawn_points. cbn [omap list_omap].
    destruct (results !! i) as [r|], (pixels !! i) as [p|]; cbn;
      rewrite ?pen_color_done; cbn; rewrite IH; try done.
    by rewrite <- app_assoc.
Qed.

Lemma paint_done rt pixels results :
  paint rt pixels results
  = Done (drawn_points rt pixels results (seq 0 (length results))).
Proof. unfold paint. by rewrite paint_loop. Qed.

Lemma elem_of_drawn_points rt pixels results indices e :
  e ∈ drawn_points rt pixels results indices ↔
  ∃ i r p, i ∈ indices ∧ results !! i = Some r ∧ pixels !! i = Some p
           ∧ e = DrawPoint p (color_of rt r).
Proof.
  unfold drawn_points. rewrite list_elem_of_omap. split.
  - intros (i & Hi & He).
    destruct (results !! i) as [r|] eqn:Hr, (pixels !! i) as [p|] eqn:Hp; try done.
    injection He as <-. by exists i, r, p.
  - intros (i & r & p & Hi & Hr & Hp & ->). exists i. by rewrite Hr, Hp.
Qed.

Lemma drawn_points_set_no_text rt pixels results indices :
  Forall (fun e => sets_text e = false) (drawn_points rt pixels results indices).
Proof.
  apply Forall_forall. intros e He.
  apply elem_of_drawn_points in He as (i & r & p & _ & _ & _ & ->). done.
Qed.

(** *** What the job does *)

Section SessionFacts.
Context `{L : Libm}.

(** The job runs to its end unless an exception escapes the handler. *)
Lemma render_job_done env w :
  escapes_handler (m_renderType w) (device env) = false →
  render_job env w
  = Done {| job_pixels := grid_pixels (m_size w);
            job_points := grid_points (m_size w) (m_view w);
            job_results :=
              stored_count (m_renderType w) (device env)
                <$> grid_points (m_size w) (m_view w);
            job_effects :=
              published env w ++ [SetDoneRendering true; EmitDoneRendering; Update] |}.
Proof.
  intros Hcaught. unfold render_job. rewrite generateGrid_done. cbn.
  rewrite evaluate_done by done. cbn. rewrite paint_done. cbn.
  unfold published. by rewrite <- !app_assoc.
Qed.

Lemma render_job_fail env w :
  escapes_handler (m_renderType w) (device env) = true →
  ∃ code, render_job env w = Fail (Uncaught code).
Proof.
  intros Hesc. unfold render_job. rewrite generateGrid_done. cbn.
  destruct (evaluate_fail _ _ (grid_points (m_size w) (m_view w))
              (replicate (length (grid_points (m_size w) (m_view w))) 0) Hesc)
    as [code ->].
  by exists code.
Qed.

(** The exception that escapes is the OpenCL error of the device run. *)
Lemma render_job_uncaught env w :
  escapes_handler (m_renderType w) (device env) = true →
  m_renderType w = Gpu
  ∧ ∃ code, device env = OpenCLError code ∧ render_job env w = Fail (Uncaught code).
Proof.
  intros Hesc. unfold escapes_handler in Hesc.
  destruct (m_renderType w) eqn:Hrt; try done.
  destruct (device env) as [| |code] eqn:Hdev; try done.
  split; [done|]. exists code. split; [done|].
  unfold render_job. by rewrite generateGrid_done, Hrt, Hdev.
Qed.

(** No division in the job ever has a zero divisor. *)
Lemma render_job_no_division_by_zero env w :
  render_job env w ≠ Fail DivideByZero.
Proof.
  destruct (escapes_handler (m_renderType w) (device env)) eqn:E.
  - destruct (render_job_fail env w E) as [code ->]. done.
  - by rewrite render_job_done.
Qed.

End SessionFacts.

(** *** How effects change the widget *)

Lemma apply_effects_app w es1 es2 :
  apply_effects w (es1 ++ es2) = apply_effects (apply_effects w es1) es2.
Proof. apply foldl_app. Qed.

Lemma done_untouched es : ∀ w,
  Forall (fun e => sets_done e = false) es →
  m_doneRendering (apply_effects w es) = m_doneRendering w.
Proof.
  induction es as [|e es IH]; intros w Hes; [done|].
  inversion Hes as [|? ? He Hes']; subst. cbn. rewrite IH by done.
  by destruct e.
Qed.

Lemma text_untouched es : ∀ w,
  Forall (fun e => sets_text e = false) es →
  m_debugLabel (apply_effects w es) = m_debugLabel w.
Proof.
  induction es as [|e es IH]; intros w Hes; [done|].
  inversion Hes as [|? ? He Hes']; subst. cbn. rewrite IH by done.
  by destruct e.
Qed.

Lemma published_sets_no_done `{L : Libm} env w :
  Forall (fun e => sets_done e = false) (published env w).
Proof.
  unfold published. rewrite !Forall_app. repeat split.
  - unfold diagnostics. destruct (m_renderType w), (device env); repeat constructor.
  - repeat constructor.
  - apply Forall_forall. intros e He.
    apply elem_of_drawn_points in He as (i & r & p & _ & _ & _ & ->). done.
Qed.

(** Membership of an effect in a list that is written out and does not
    hold it. *)
Ltac not_in_list H :=
  repeat (apply elem_of_cons in H as [H | H]; [discriminate H|]);
  apply elem_of_nil in H.

(** A pixel that is drawn, when every drawn colour is [c0], ends as [c0]. *)
Lemma pixmap_drawn (c0 : QColor) (q : QPoint) (es : list Effect) :
  (∀ p c, DrawPoint p c ∈ es → c = c0) →
  (∃ c, DrawPoint q c ∈ es) →
  ∀ w, m_pixmap (apply_effects w es) !! q = Some c0.
Proof.
  induction es as [|e es IH] using rev_ind; intros Hall [c Hq] w.
  - by apply elem_of_nil in Hq.
  - unfold apply_effects. rewrite foldl_snoc. fold (apply_effects w es).
    assert (Hall' : ∀ p c, DrawPoint p c ∈ es → c = c0).
    { intros p c' Hp. apply (Hall p). apply elem_of_app. by left. }
    apply elem_of_app in Hq as [Hq | Hq].
    + destruct e; cbn; try (apply IH; eauto).
      destruct (decide (p = q)) as [-> | Hne].
      * rewrite lookup_insert_eq. f_equal. apply (Hall q).
        apply elem_of_app. right. by apply list_elem_of_singleton.
      * rewrite lookup_insert_ne by done. apply IH; eauto.
    + apply list_elem_of_singleton in Hq as <-. cbn.
      rewrite lookup_insert_eq. f_equal. apply (Hall q).
      apply elem_of_app. right. by apply list_elem_of_singleton.
Qed.

(** C3: when the device run ends in a program build failure, the job still
    returns: it prints the build log, the message, the error code and the
    error string to [std::cout], leaves the result vector zero-filled at the
    grid's length, paints every pixel of the viewport black, sets
    [m_doneRendering] and emits [doneRendering]. *)
Theorem build_failure_is_contained `{L : Libm} (env : Env) (w : MandelbrotWidget)
    (f : BuildFailure) :
  m_renderType w = Gpu →
  device env = ProgramBuildFailure f →
  ∃ run rest,
    render_job env w = Done run
    ∧ job_effects run
      = [Cout (PrintString (build_log f)); Cout (PrintString (what f));
         Cout (PrintInt (error_code f)); Cout (PrintString (error_string f))]
        ++ rest
    ∧ job_points run = grid_points (m_size w) (m_view w)
    ∧ job_results run = replicate (length (job_points run)) 0
    ∧ EmitDoneRendering ∈ rest
    ∧ m_doneRendering (apply_effects w (job_effects run)) = true
    ∧ rendering (apply_effects w (job_effects run)) = false
    ∧ (∀ x y, 0 ≤ x < m_size w → 0 ≤ y < m_size w →
         m_pixmap (apply_effects w (job_effects run)) !! (x, y) = Some black)
    ∧ ∃ label_box,
        paintEvent (apply_effects w (job_effects run))
        = Pixmap (m_pixmap (apply_effects w (job_effects run))) label_box.
Proof.
  intros Hrt Hdev.
  assert (Hcaught : escapes_handler (m_renderType w) (device env) = false)
    by (by rewrite Hrt, Hdev).
  pose proof (render_job_done env w Hcaught) as Hjob.
  assert (Hres : stored_count (m_renderType w) (device env)
                   <$> grid_points (m_size w) (m_view w)
                 = replicate (length (grid_points (m_size w) (m_view w))) 0).
  { apply const_fmap. intros _ p _. by rewrite Hrt, Hdev. }
  assert (Hdone : m_doneRendering
            (apply_effects w (published env w
               ++ [SetDoneRendering true; EmitDoneRendering; Update])) = true).
  { by rewrite apply_effects_app. }
  eexists _, _. split; [exact Hjob|]. cbn [job_effects job_points job_results].
  split; [|split; [done|split; [done|split; [|split; [done|split; [|split]]]]]].
  - unfold published. rewrite Hrt, Hdev. cbn [diagnostics]. rewrite <- !app_assoc.
    reflexivity.
  - rewrite !elem_of_app. do 2 right. repeat constructor.
  - unfold rendering. by rewrite Hdone.
  - intros x y Hx Hy. apply pixmap_drawn.
    + intros p c Hin. unfold published in Hin.
      rewrite !elem_of_app in Hin.
      destruct Hin as [[Hin | [Hin | Hin]] | Hin].
      * rewrite Hrt, Hdev in Hin. by not_in_list Hin.
      * by not_in_list Hin.
      * apply elem_of_drawn_points in Hin as (i & r & p' & _ & Hr & _ & Heq).
        injection Heq as -> ->. rewrite Hres in Hr.
        apply lookup_replicate in Hr as [-> _]. by rewrite Hrt.
      * by not_in_list Hin.
    + exists black. rewrite elem_of_app. left. unfold published.
      rewrite !elem_of_app. right. right.
      destruct (grid_lookup (m_size w) (m_view w) x y Hx Hy) as [Hpx Hpt].
      apply elem_of_drawn_points.
      exists (Z.to_nat (x * m_size w + y)), 0, (x, y).
      assert (Hlt : (Z.to_nat (x * m_size w + y)
                     < length (grid_points (m_size w) (m_view w)))%nat)
        by (by apply lookup_lt_Some in Hpt).
      split; [|split; [|split]].
      * apply elem_of_seq. rewrite length_fmap. lia.
      * rewrite Hres. by apply lookup_replicate_2.
      * done.
      * by rewrite Hrt.
  - unfold paintEvent. rewrite Hdone. by eexists.
Qed.

Lemma build_failure_is_contained_2x2 :
  ∃ run rest,
    @render_job textbook_libm (sample_env (ProgramBuildFailure sample_failure))
                (new_widget Gpu 3 4) = Done run
    ∧ job_effects run
      = [Cout (PrintString (build_log sample_failure));
         Cout (PrintString (what sample_failure));
         Cout (PrintInt (error_code sample_failure));
         Cout (PrintString (error_string sample_failure))]
        ++ rest
    ∧ job_points run = grid_points 2 EntireSet
    ∧ job_results run = replicate (length (job_points run)) 0
    ∧ EmitDoneRendering ∈ rest
    ∧ m_doneRendering (apply_effects (new_widget Gpu 3 4) (job_effects run)) = true
    ∧ rendering (apply_effects (new_widget Gpu 3 4) (job_effects run)) = false
    ∧ (∀ x y, 0 ≤ x < 2 → 0 ≤ y < 2 →
         m_pixmap (apply_effects (new_widget Gpu 3 4) (job_effects run)) !! (x, y)
         = Some black)
    ∧ ∃ label_box,
        paintEvent (apply_effects (new_widget Gpu 3 4) (job_effects run))
        = Pixmap (m_pixmap (apply_effects (new_widget Gpu 3 4) (job_effects run)))
                 label_box.
Proof.
  apply (@build_failure_is_contained textbook_libm
           (sample_env (ProgramBuildFailure sample_failure))
           (new_widget Gpu 3 4) sample_failure); reflexivity.
Defined.

(** C8, as the code has it: with a viewport size of 1 the grid is the one
    pixel (0,0) with the sample of the view's corner, with a size of 0 it is
    empty; in both cases no division of the job has a zero divisor.  A size
    of 0 is not rejected: as for a size of 1, the job runs to its end, with
    one result per pixel and [m_doneRendering] set, unless the device run
    throws an OpenCL error other than a build failure, which ends the job of
    the device strategy with that error and [m_doneRendering] as it was. *)
Theorem viewport_one_and_zero `{L : Libm} (env : Env) (w : MandelbrotWidget) :
  m_size w = 1 ∨ m_size w = 0 →
  generateGrid (m_size w) (m_view w)
  = Done (if decide (m_size w = 1)
          then ([(0, 0)],
                [match m_view w with
                 | EntireSet => Complex (-2.5) (-2.0)
                 | LeftSpike => Complex (-1.7) (-0.125)
                 end])
          else ([], []))
  ∧ render_job env w ≠ Fail DivideByZero
  ∧ if escapes_handler (m_renderType w) (device env)
    then m_renderType w = Gpu
         ∧ ∃ code, device env = OpenCLError code
                   ∧ render_job env w = Fail (Uncaught code)
    else ∃ run, render_job env w = Done run
           ∧ job_pixels run = (if decide (m_size w = 1) then [(0, 0)] else [])
           ∧ length (job_results run) = length (job_pixels run)
           ∧ m_doneRendering (apply_effects w (job_effects run)) = true.
Proof.
  intros Hsize. split; [|split].
  - destruct Hsize as [-> | ->]; [|done]. by destruct (m_view w).
  - apply render_job_no_division_by_zero.
  - destruct (escapes_handler (m_renderType w) (device env)) eqn:Hesc.
    { by apply render_job_uncaught. }
    eexists. split; [by apply render_job_done|].
    cbn [job_pixels job_results job_effects]. split; [|split].
    + by destruct Hsize as [-> | ->].
    + rewrite length_fmap. by destruct Hsize as [-> | ->].
    + by rewrite apply_effects_app.
Qed.

Lemma viewport_one_and_zero_gpu :
  generateGrid 1 EntireSet = Done ([(0, 0)], [Complex (-2.5) (-2.0)])
  ∧ @render_job textbook_libm (sample_env DeviceOk) (new_widget Gpu 2 2)
    ≠ Fail DivideByZero
  ∧ ∃ run,
      @render_job textbook_libm (sample_env DeviceOk) (new_widget Gpu 2 2) = Done run
      ∧ job_pixels run = [(0, 0)].
Proof.
  pose proof (@viewport_one_and_zero textbook_libm (sample_env DeviceOk)
                (new_widget Gpu 2 2) (or_introl eq_refl))
    as (Hgrid & Hdiv & run & Hjob & Hpixels & _).
  exact (conj Hgrid (conj Hdiv (ex_intro _ run (conj Hjob Hpixels)))).
Defined.

(** C8 as stated fails: on a 1 x 1 screen the constructor computes a
    viewport size of 0, and the render that follows is carried out, not
    rejected: its grid is empty, it sets the label, sets [m_doneRendering]
    and emits [doneRendering]. *)
Lemma viewport_zero_not_rejected :
  m_size (new_widget CpuSingleThread 1 1) = 0
  ∧ generateGrid 0 EntireSet = Done ([], [])
  ∧ @render_job textbook_libm (sample_env DeviceOk)
      (apply_effects (new_widget CpuSingleThread 1 1) rerender)
    = Done {| job_pixels := []; job_points := []; job_results := [];
              job_effects :=
                [SetText (Timing SingleThreadedCpu 0 1500000); ResizeLabel;
                 SetDoneRendering true; EmitDoneRendering; Update] |}.
Proof. repeat split. Qed.

(** C10, as the code has it: [setView] writes [m_view] and nothing else: the
    render type, the size, the done flag, the pixmap and the label are
    unchanged, so are [rendering()] and what [paintEvent] shows; it launches
    no job and emits no signal.  The new view is the one a job reads when it
    builds its grid: the job of a [rerender()] called afterwards, and just
    as well the job that an earlier [rerender()] launched and that runs
    after the call. *)
Theorem setView_frame `{L : Libm} (view : FractalView) (w : MandelbrotWidget) :
  m_view (apply_effects w (setView view)) = view
  ∧ m_renderType (apply_effects w (setView view)) = m_renderType w
  ∧ m_size (apply_effects w (setView view)) = m_size w
  ∧ m_doneRendering (apply_effects w (setView view)) = m_doneRendering w
  ∧ m_pixmap (apply_effects w (setView view)) = m_pixmap w
  ∧ m_debugLabel (apply_effects w (setView view)) = m_debugLabel w
  ∧ rendering (apply_effects w (setView view)) = rendering w
  ∧ paintEvent (apply_effects w (setView view)) = paintEvent w
  ∧ setView view = [SetView view]
  ∧ (Launch ∉ setView view)
  ∧ (EmitRendering ∉ setView view)
  ∧ (∀ env run,
       render_job env (apply_effects (apply_effects w (setView view)) rerender)
       = Done run →
       job_pixels run = grid_pixels (m_size w)
       ∧ job_points run = grid_points (m_size w) view)
  ∧ (∀ env run,
       render_job env (apply_effects (apply_effects w rerender) (setView view))
       = Done run →
       job_pixels run = grid_pixels (m_size w)
       ∧ job_points run = grid_points (m_size w) view).
Proof.
  repeat (split; [done|]).
  split; [intros Hin; by not_in_list Hin|].
  split; [intros Hin; by not_in_list Hin|].
  split; intros env run Hjob.
  - destruct (escapes_handler
                (m_renderType (apply_effects (apply_effects w (setView view)) rerender))
                (device env)) eqn:E.
    + destruct (render_job_fail env _ E) as [code Hfail]. congruence.
    + rewrite render_job_done in Hjob by done. by injection Hjob as <-.
  - destruct (escapes_handler
                (m_renderType (apply_effects (apply_effects w rerender) (setView view)))
                (device env)) eqn:E.
    + destruct (render_job_fail env _ E) as [code Hfail]. congruence.
    + rewrite render_job_done in Hjob by done. by injection Hjob as <-.
Qed.

(** C10 as stated fails in its last clause: the new view does not wait for
    the next [rerender()].  A widget built on a 3 x 4 screen shows the entire
    set; [rerender()] launches its job; [setView(LeftSpike)] comes before the
    job runs, and no further [rerender()] is called.  The job then samples
    the left spike: its first sample is (-1.7, -0.125), not the (-2.5, -2.0)
    of the view the widget held when [rerender()] was called. *)
Lemma setView_reaches_pending_job :
  m_view (apply_effects (new_widget CpuSingleThread 3 4) rerender) = EntireSet
  ∧ grid_points 2 EntireSet !! 0%nat = Some (Complex (-2.5) (-2.0))
  ∧ ∃ run,
      @render_job textbook_libm (sample_env DeviceOk)
        (apply_effects (apply_effects (new_widget CpuSingleThread 3 4) rerender)
           (setView LeftSpike)) = Done run
      ∧ job_points run = grid_points 2 LeftSpike
      ∧ job_points run !! 0%nat = Some (Complex (-1.7) (-0.125))
      ∧ job_points run ≠ grid_points 2 EntireSet.
Proof.
  split; [reflexivity|]. split; [reflexivity|].
  pose proof (@render_job_done textbook_libm (sample_env DeviceOk)
                (apply_effects (apply_effects (new_widget CpuSingleThread 3 4) rerender)
                   (setView LeftSpike)) eq_refl) as Hjob.
  eexists. split; [exact Hjob|]. cbn [job_points].
  split; [vm_compute; reflexivity|]. split; [vm_compute; reflexivity|].
  intros Heq. apply (f_equal (fun l => l !! 0%nat)) in Heq.
  vm_compute in Heq. discriminate Heq.
Qed.

(** * Further properties *)

(** ** The device kernel *)

Lemma compute_loop_first_escape c n : ∀ m,
  (∃ i : nat, (m ≤ i < m + n)%nat
     ∧ compute_escaped (compute_orbit c (S i)) = true
     ∧ (∀ j, (m ≤ j < i)%nat → compute_escaped (compute_orbit c (S j)) = false)
     ∧ compute_loop c (compute_orbit c m) (Z.of_nat m) n = Z.of_nat i + 1)
  ∨ ((∀ j, (m ≤ j < m + n)%nat → compute_escaped (compute_orbit c (S j)) = false)
     ∧ compute_loop c (compute_orbit c m) (Z.of_nat m) n = 0).
Proof.
  induction n as [|n IH]; intros m.
  - right. split; [intros j Hj; lia | done].
  - cbn [compute_loop].
    change (Complex _ _) with (compute_orbit c (S m)).
    fold (compute_escaped (compute_orbit c (S m))).
    destruct (compute_escaped (compute_orbit c (S m))) eqn:E.
    + left. exists m. split; [lia|]. split; [done|]. split; [intros j Hj; lia | done].
    + replace (Z.of_nat m + 1) with (Z.of_nat (S m)) by lia.
      destruct (IH (S m)) as [(i & Hi & Hesc & Hfirst & Hk) | (Hnone & Hk)].
      * left. exists i. split; [lia|]. split; [done|]. split; [|done].
        intros j Hj. destruct (decide (j = m)) as [-> | Hne]; [done|].
        apply Hfirst. lia.
      * right. split; [|done].
        intros j Hj. destruct (decide (j = m)) as [-> | Hne]; [done|].
        apply Hnone. lia.
Qed.

Lemma compute_loop_range c : ∀ n z i,
  0 ≤ i →
  compute_loop c z i n = 0 ∨ i < compute_loop c z i n ≤ i + Z.of_nat n.
Proof.
  induction n as [|n IH]; intros z i Hi; cbn [compute_loop]; [by left|].
  destruct (_ <? _)%float; [right; lia|].
  destruct (IH (compute_step c z) (i + 1)) as [Hz | Hz]; [lia | |];
    unfold compute_step in Hz; [by left | right; lia].
Qed.

Lemma calculateMandelbrotCompute_range c :
  0 ≤ calculateMandelbrotCompute c ≤ 100.
Proof.
  unfold calculateMandelbrotCompute. destruct (_ <? _)%float; [lia|].
  destruct (compute_loop_range c 100 c 0) as [-> | ?]; lia.
Qed.

Lemma calculateMandelbrot_range `{L : Libm} c :
  0 ≤ calculateMandelbrot c ≤ 100.
Proof.
  unfold calculateMandelbrot. destruct (_ <? _)%float; [lia|].
  destruct (mandelbrot_loop_range c 100 c 0) as [-> | ?]; lia.
Qed.

(** X1: the OpenCL kernel returns 1 when [sqrt(x*x + y*y) > 2]; otherwise it
    returns [i + 1] for the first step [i < 100] whose new [z] has
    [x*x + y*y > 4], and 0 when no step within 100 has; its result lies in
    0..100. *)
Theorem calculateMandelbrotCompute_spec (c : complex) :
  0 ≤ calculateMandelbrotCompute c ≤ 100
  ∧ if (2 <? PrimFloat.sqrt (real c * real c + imag c * imag c))%float
    then calculateMandelbrotCompute c = 1
    else (∃ i : nat, (i < 100)%nat
            ∧ compute_escaped (compute_orbit c (S i)) = true
            ∧ (∀ j, (j < i)%nat → compute_escaped (compute_orbit c (S j)) = false)
            ∧ calculateMandelbrotCompute c = Z.of_nat i + 1)
         ∨ ((∀ i, (i < 100)%nat → compute_escaped (compute_orbit c (S i)) = false)
            ∧ calculateMandelbrotCompute c = 0).
Proof.
  split; [apply calculateMandelbrotCompute_range|].
  unfold calculateMandelbrotCompute.
  destruct (2 <? _)%float eqn:Habs; [done|].
  destruct (compute_loop_first_escape c 100 0)
    as [(i & Hi & Hesc & Hfirst & Hk) | (Hnone & Hk)]; cbn [compute_orbit] in Hk;
    change (Z.of_nat 0) with 0 in Hk.
  - left. exists i. split; [lia|]. split; [done|]. split; [|done].
    intros j Hj. apply Hfirst. lia.
  - right. split; [|done]. intros i Hi. apply Hnone. lia.
Qed.

(** ** The grid's pixels *)

Lemma elem_of_grid_pixels size q :
  q ∈ grid_pixels size ↔ in_viewport size q.
Proof.
  unfold grid_pixels, in_viewport. rewrite list_elem_of_bind. split.
  - intros (row & Hq & Hrow). apply list_elem_of_fmap in Hq as (col & -> & Hcol).
    apply elem_of_seqZ in Hrow, Hcol. cbn. lia.
  - intros [Hrow Hcol]. destruct q as [row col]. cbn in *. exists row. split.
    + apply list_elem_of_fmap. exists col. split; [done|]. apply elem_of_seqZ. lia.
    + apply elem_of_seqZ. lia.
Qed.

Lemma NoDup_grid_pixels size : NoDup (grid_pixels size).
Proof.
  unfold grid_pixels. apply NoDup_bind.
  - intros row1 row2 q _ _ H1 H2.
    apply list_elem_of_fmap in H1 as (col1 & -> & _).
    apply list_elem_of_fmap in H2 as (col2 & Heq & _). by injection Heq.
  - intros row _. apply NoDup_fmap_2; [|apply NoDup_seqZ].
    intros col1 col2 Heq. by injection Heq.
  - apply NoDup_seqZ.
Qed.

(** The index of a pixel of the grid. *)
Lemma grid_pixels_index size (i : nat) x y :
  grid_pixels size !! i = Some (x, y) →
  in_viewport size (x, y) ∧ i = Z.to_nat (x * size + y).
Proof.
  intros Hi.
  assert (Hin : in_viewport size (x, y)).
  { apply elem_of_grid_pixels, list_elem_of_lookup. by exists i. }
  split; [done|]. destruct Hin as [Hx Hy]. cbn in Hx, Hy.
  destruct (grid_lookup size EntireSet x y Hx Hy) as [Hpx _].
  exact (NoDup_lookup _ _ _ _ (NoDup_grid_pixels size) Hi Hpx).
Qed.

(** X2: for every size, also zero or negative, the generator returns; its
    pixels are exactly the pixels of the viewport, each once, the pixel
    [(x, y)] at index [x * size + y] beside its own sample; for a size of 0
    or less both vectors are empty. *)
Theorem generateGrid_covers_viewport (size : Z) (view : FractalView) :
  ∃ pixels points,
    generateGrid size view = Done (pixels, points)
    ∧ length pixels = length points
    ∧ NoDup pixels
    ∧ (∀ q, q ∈ pixels ↔ 0 ≤ q.1 < size ∧ 0 ≤ q.2 < size)
    ∧ (∀ (i : nat) x y, pixels !! i = Some (x, y) →
         Z.of_nat i = x * size + y
         ∧ points !! i = Some (sample_at view x y size))
    ∧ (size ≤ 0 → pixels = [] ∧ points = []).
Proof.
  exists (grid_pixels size), (grid_points size view).
  split; [apply generateGrid_done|].
  split.
  { unfold grid_pixels, grid_points.
    rewrite !(length_rows _ (Z.to_nat size))
      by (intros; by rewrite length_fmap, length_seqZ).
    done. }
  split; [apply NoDup_grid_pixels|].
  split; [apply elem_of_grid_pixels|].
  split.
  - intros i x y Hi. apply grid_pixels_index in Hi as [[Hx Hy] ->]. cbn in Hx, Hy.
    split; [nia|]. by destruct (grid_lookup size view x y Hx Hy).
  - intros Hsize. unfold grid_pixels, grid_points. by rewrite seqZ_nil.
Qed.

(** ** The colour tables *)

(** On the quotients [255 / count] the double division by 0.8 and the cast
    to [int] compute the integer [5 * q / 4]. *)
Lemma shade08_quotient q :
  0 ≤ q ≤ 255 → to_int (of_int q / 0.8) = q * 5 / 4.
Proof.
  intros Hq.
  assert (Hall : forallb (fun q => to_int (of_int q / 0.8) =? q * 5 / 4) (seqZ 0 256) = true)
    by (vm_compute; reflexivity).
  rewrite forallb_forall in Hall.
  apply Z.eqb_eq, Hall, list_elem_of_In, elem_of_seqZ. lia.
Qed.

(** The two shades of a count, in integers. *)
Lemma shades_of_count count :
  1 ≤ count →
  shade4 count = Done (255 / count / 4)
  ∧ shade08 count = Done (255 / count * 5 / 4)
  ∧ 0 ≤ 255 / count ≤ 255
  ∧ 0 ≤ 255 / count / 4 ≤ 63
  ∧ 0 ≤ 255 / count * 5 / 4 ≤ 318.
Proof.
  intros Hc.
  assert (Hq : 0 ≤ 255 / count ≤ 255).
  { split; [apply Z.div_pos; lia | apply Z.div_le_upper_bound; nia]. }
  unfold shade4, shade08. rewrite !int_div_255 by lia.
  rewrite (Z.quot_div_nonneg 255 count) by lia. cbn.
  rewrite Z.quot_div_nonneg by lia. rewrite shade08_quotient by done.
  repeat split; try lia.
  - apply Z.div_pos; lia.
  - apply Z.lt_succ_r, Z.div_lt_upper_bound; lia.
  - apply Z.div_pos; lia.
  - apply Z.lt_succ_r, Z.div_lt_upper_bound; lia.
Qed.

Lemma pen_color_formula rt count :
  1 ≤ count →
  pen_color rt count
  = Done match rt with
         | CpuSingleThread =>
             rgb (255 - 255 / count / 4)
                 (255 - Z.min (255 / count * 5 / 4 + 50) 255)
                 (255 - Z.min (255 / count * 5 / 4 + 50) 255)
         | CpuMultiThread =>
             rgb (255 - Z.min (255 / count * 5 / 4 + 50) 255)
                 (255 - (255 / count / 4 + 50))
                 (255 - Z.min (255 / count * 5 / 4 + 50) 255)
         | Gpu =>
             rgb (255 - Z.min (255 / count * 5 / 4 + 50) 255)
                 (255 - Z.min (255 / count * 5 / 4 + 50) 255)
                 (255 - (255 / count / 4 + 50))
         end.
Proof.
  intros Hc. destruct (shades_of_count count Hc) as (H4 & H08 & _ & Ha & _).
  unfold pen_color. destruct (Z.eqb_spec count 0) as [? | _]; [lia|].
  rewrite H4, H08. destruct rt; cbn; do 2 f_equal; lia.
Qed.

(** X3: for a count of 1 or more the pen is given by integer arithmetic
    alone: with [a = 255/count/4] and [b = 5*(255/count)/4], the channel of
    divisor 4 is [255 - a] (single-thread red) or [255 - (a + 50)] (green of
    multi-thread, blue of the device), the other channels are
    [255 - min(b + 50, 255)]; every channel lies in 0..255. *)
Theorem pen_color_table (rt : RenderType) (count : Z) :
  1 ≤ count →
  ∃ c,
    pen_color rt count = Done c
    ∧ c = match rt with
          | CpuSingleThread =>
              rgb (255 - 255 / count / 4)
                  (255 - Z.min (255 / count * 5 / 4 + 50) 255)
                  (255 - Z.min (255 / count * 5 / 4 + 50) 255)
          | CpuMultiThread =>
              rgb (255 - Z.min (255 / count * 5 / 4 + 50) 255)
                  (255 - (255 / count / 4 + 50))
                  (255 - Z.min (255 / count * 5 / 4 + 50) 255)
          | Gpu =>
              rgb (255 - Z.min (255 / count * 5 / 4 + 50) 255)
                  (255 - Z.min (255 / count * 5 / 4 + 50) 255)
                  (255 - (255 / count / 4 + 50))
          end
    ∧ 0 ≤ red c ≤ 255 ∧ 0 ≤ green c ≤ 255 ∧ 0 ≤ blue c ≤ 255.
Proof.
  intros Hc. eexists. split; [by apply pen_color_formula|]. split; [done|].
  destruct (shades_of_count count Hc) as (_ & _ & _ & Ha & Hb).
  destruct rt; cbn [red green blue]; lia.
Qed.

Lemma pen_color_table_count_3 :
  ∃ c,
    pen_color CpuMultiThread 3 = Done c
    ∧ c = rgb (255 - Z.min (255 / 3 * 5 / 4 + 50) 255)
              (255 - (255 / 3 / 4 + 50))
              (255 - Z.min (255 / 3 * 5 / 4 + 50) 255)
    ∧ 0 ≤ red c ≤ 255 ∧ 0 ≤ green c ≤ 255 ∧ 0 ≤ blue c ≤ 255.
Proof. apply (pen_color_table CpuMultiThread 3). lia. Defined.

(** X4: a larger count never gives a darker pen: each channel of the pen of
    [count'] is at least that channel of the pen of [count] when
    [1 ≤ count ≤ count']. *)
Theorem pen_color_lighter_with_count (rt : RenderType) (count count' : Z) :
  1 ≤ count ≤ count' →
  ∃ c c',
    pen_color rt count = Done c ∧ pen_color rt count' = Done c'
    ∧ red c ≤ red c' ∧ green c ≤ green c' ∧ blue c ≤ blue c'.
Proof.
  intros Hc. eexists _, _.
  split; [apply pen_color_formula; lia|]. split; [apply pen_color_formula; lia|].
  assert (Hq : 255 / count' ≤ 255 / count)
    by (apply Z.div_le_compat_l; lia).
  assert (Ha : 255 / count' / 4 ≤ 255 / count / 4)
    by (apply Z.div_le_mono; lia).
  assert (Hb : 255 / count' * 5 / 4 ≤ 255 / count * 5 / 4)
    by (apply Z.div_le_mono; lia).
  destruct rt; cbn [red green blue]; lia.
Qed.

Lemma pen_color_lighter_with_count_2_9 :
  ∃ c c',
    pen_color Gpu 2 = Done c ∧ pen_color Gpu 9 = Done c'
    ∧ red c ≤ red c' ∧ green c ≤ green c' ∧ blue c ≤ blue c'.
Proof. apply (pen_color_lighter_with_count Gpu 2 9). lia. Defined.

(** ** The viewport size *)

Lemma all_from_spec f : ∀ n lo,
  all_from f lo n = true → ∀ k, lo ≤ k < lo + Z.of_nat n → f k = true.
Proof.
  induction n as [|n IH]; intros lo Hall k Hk; [lia|].
  cbn in Hall. apply andb_prop in Hall as [Hlo Hrest].
  destruct (decide (k = lo)) as [-> | Hne]; [done|].
  apply (IH (lo + 1)); [done | lia].
Qed.

Lemma nine_tenths s :
  0 ≤ s ≤ 32767 → to_int (of_int s * 0.9) = s * 9 / 10.
Proof.
  intros Hs.
  assert (Hall : all_from (fun s => to_int (of_int s * 0.9) =? s * 9 / 10)
                   0 (Z.to_nat 32768) = true)
    by (vm_compute; reflexivity).
  apply Z.eqb_eq, (all_from_spec _ _ _ Hall). lia.
Qed.

(** X5: on a screen whose smaller side is between 0 and 32767 pixels the
    constructor sets [m_size] to nine tenths of that side, rounded down: the
    viewport is never larger than the screen, and it is empty exactly when
    the smaller side is 0 or 1. *)
Theorem new_widget_size (renderType : RenderType) (screen_width screen_height : Z) :
  0 ≤ Z.min screen_width screen_height ≤ 32767 →
  m_size (new_widget renderType screen_width screen_height)
  = Z.min screen_width screen_height * 9 / 10
  ∧ 0 ≤ m_size (new_widget renderType screen_width screen_height)
      ≤ Z.min screen_width screen_height
  ∧ (m_size (new_widget renderType screen_width screen_height) = 0
     ↔ Z.min screen_width screen_height ≤ 1).
Proof.
  intros Hs. cbn [new_widget m_size]. rewrite nine_tenths by done.
  set (s := Z.min screen_width screen_height) in *.
  pose proof (Z.div_mod (s * 9) 10 ltac:(lia)) as Hdm.
  pose proof (Z.mod_pos_bound (s * 9) 10 ltac:(lia)) as Hmod.
  split; [done|]. split; lia.
Qed.

Lemma new_widget_size_full_hd :
  m_size (new_widget Gpu 1920 1080) = Z.min 1920 1080 * 9 / 10
  ∧ 0 ≤ m_size (new_widget Gpu 1920 1080) ≤ Z.min 1920 1080
  ∧ (m_size (new_widget Gpu 1920 1080) = 0 ↔ Z.min 1920 1080 ≤ 1).
Proof. apply (new_widget_size Gpu 1920 1080). cbn. lia. Defined.

(** ** The image a job paints *)

(** A pixel no effect draws keeps its colour. *)
Lemma pixmap_untouched (q : QPoint) (es : list Effect) :
  (∀ c, DrawPoint q c ∉ es) →
  ∀ w, m_pixmap (apply_effects w es) !! q = m_pixmap w !! q.
Proof.
  induction es as [|e es IH]; intros Hq w; [done|].
  cbn. rewrite IH.
  - destruct e; try done. cbn. apply lookup_insert_ne.
    intros ->. apply (Hq c). by left.
  - intros c Hin. apply (Hq c). by right.
Qed.

(** A pixel drawn, and only ever drawn in the colour [c], ends in [c]. *)
Lemma pixmap_one_colour (q : QPoint) (c : QColor) (es : list Effect) :
  (∀ c', DrawPoint q c' ∈ es → c' = c) →
  DrawPoint q c ∈ es →
  ∀ w, m_pixmap (apply_effects w es) !! q = Some c.
Proof.
  induction es as [|e es IH] using rev_ind; intros Hall Hq w.
  - by apply elem_of_nil in Hq.
  - unfold apply_effects. rewrite foldl_snoc. fold (apply_effects w es).
    assert (Hall' : ∀ c', DrawPoint q c' ∈ es → c' = c).
    { intros c' Hc'. apply Hall, elem_of_app. by left. }
    assert (Hlast : ∀ c', e = DrawPoint q c' → c' = c).
    { intros c' ->. apply Hall, elem_of_app. right. by apply list_elem_of_singleton. }
    apply elem_of_app in Hq as [Hq | Hq].
    + destruct e; cbn; try (by apply IH).
      destruct (decide (p = q)) as [-> | Hne].
      * rewrite lookup_insert_eq. f_equal. by apply Hlast.
      * rewrite lookup_insert_ne by done. by apply IH.
    + apply list_elem_of_singleton in Hq as <-. cbn. by rewrite lookup_insert_eq.
Qed.

Section ImageFacts.
Context `{L : Libm}.

(** The [drawPoint] calls of a job: one colour per pixel of the viewport. *)
Lemma draws_of_job env w q c :
  DrawPoint q c
    ∈ published env w ++ [SetDoneRendering true; EmitDoneRendering; Update]
  ↔ in_viewport (m_size w) q
    ∧ c = color_of (m_renderType w)
            (stored_count (m_renderType w) (device env)
               (sample_at (m_view w) q.1 q.2 (m_size w))).
Proof.
  unfold published. rewrite !elem_of_app. split.
  - intros [[Hin | [Hin | Hin]] | Hin].
    + unfold diagnostics in Hin.
      destruct (m_renderType w), (device env); by not_in_list Hin.
    + by not_in_list Hin.
    + apply elem_of_drawn_points in Hin as (i & r & p & _ & Hr & Hp & Heq).
      injection Heq as -> ->. destruct p as [x y].
      apply grid_pixels_index in Hp as [Hview ->]. split; [done|].
      destruct Hview as [Hx Hy]. cbn in Hx, Hy.
      destruct (grid_lookup (m_size w) (m_view w) x y Hx Hy) as [_ Hpt].
      rewrite list_lookup_fmap, Hpt in Hr. by injection Hr as <-.
    + by not_in_list Hin.
  - intros [[Hx Hy] ->]. destruct q as [x y]. cbn in Hx, Hy. left. right. right.
    destruct (grid_lookup (m_size w) (m_view w) x y Hx Hy) as [Hpx Hpt].
    apply elem_of_drawn_points.
    exists (Z.to_nat (x * m_size w + y)),
           (stored_count (m_renderType w) (device env)
              (sample_at (m_view w) x y (m_size w))),
           (x, y).
    split; [|split; [|split; [done|done]]].
    + apply elem_of_seq. rewrite length_fmap.
      apply lookup_lt_Some in Hpt. lia.
    + by rewrite list_lookup_fmap, Hpt.
Qed.

(** The pixmap after a job that ran to its end. *)
Lemma pixmap_of_job env w0 w q :
  m_pixmap
    (apply_effects w0
       (published env w ++ [SetDoneRendering true; EmitDoneRendering; Update]))
    !! q
  = if decide (in_viewport (m_size w) q)
    then Some (color_of (m_renderType w)
                 (stored_count (m_renderType w) (device env)
                    (sample_at (m_view w) q.1 q.2 (m_size w))))
    else m_pixmap w0 !! q.
Proof.
  destruct (decide (in_viewport (m_size w) q)) as [Hin | Hout].
  - apply pixmap_one_colour.
    + intros c' Hc'. by apply draws_of_job in Hc' as [_ ->].
    + by apply draws_of_job.
  - apply pixmap_untouched. intros c Hc. by apply draws_of_job in Hc as [? _].
Qed.
End ImageFacts.

(** *** What no effect of a job changes *)

Lemma size_and_type_kept es : ∀ w,
  m_size (apply_effects w es) = m_size w
  ∧ m_renderType (apply_effects w es) = m_renderType w.
Proof.
  induction es as [|e es IH]; intros w; [done|].
  change (apply_effects w (e :: es)) with (apply_effects (apply_effect w e) es).
  destruct (IH (apply_effect w e)) as [-> ->]. by destruct e.
Qed.

Lemma view_untouched es : ∀ w,
  Forall (fun e => sets_view e = false) es →
  m_view (apply_effects w es) = m_view w.
Proof.
  induction es as [|e es IH]; intros w Hes; [done|].
  inversion Hes as [|? ? He Hes']; subst. cbn. rewrite IH by done.
  by destruct e.
Qed.

Lemma published_sets_no_view `{L : Libm} env w :
  Forall (fun e => sets_view e = false)
    (published env w ++ [SetDoneRendering true; EmitDoneRendering; Update]).
Proof.
  unfold published. rewrite !Forall_app. repeat split.
  - unfold diagnostics. destruct (m_renderType w), (device env); repeat constructor.
  - repeat constructor.
  - apply Forall_forall. intros e He.
    apply elem_of_drawn_points in He as (i & r & p & _ & _ & _ & ->). done.
  - repeat constructor.
Qed.

Lemma stored_count_range `{L : Libm} rt dev p :
  0 ≤ stored_count rt dev p ≤ 100.
Proof.
  unfold stored_count.
  destruct rt, dev;
    first [apply calculateMandelbrot_range
          | apply calculateMandelbrotCompute_range | lia].
Qed.

Lemma color_of_valid rt count :
  0 ≤ count →
  0 ≤ red (color_of rt count) ≤ 255
  ∧ 0 ≤ green (color_of rt count) ≤ 255
  ∧ 0 ≤ blue (color_of rt count) ≤ 255.
Proof.
  intros Hc. unfold color_of.
  destruct (decide (count = 0)) as [-> | Hne]; [by destruct rt|].
  rewrite pen_color_formula by lia.
  destruct (shades_of_count count ltac:(lia)) as (_ & _ & _ & Ha & Hb).
  destruct rt; cbn [red green blue]; lia.
Qed.

Section RenderedFacts.
Context `{L : Libm}.

Lemma rendered_done env w :
  escapes_handler (m_renderType w) (device env) = false →
  rendered env w
  = apply_effects (apply_effects w rerender)
      (published env (apply_effects w rerender)
       ++ [SetDoneRendering true; EmitDoneRendering; Update]).
Proof.
  intros Hcaught. unfold rendered.
  by rewrite (render_job_done env (apply_effects w rerender)).
Qed.

Lemma rendered_fail env w :
  escapes_handler (m_renderType w) (device env) = true →
  rendered env w = apply_effects w rerender.
Proof.
  intros Hesc. unfold rendered.
  by destruct (render_job_fail env (apply_effects w rerender) Hesc) as [code ->].
Qed.

Lemma rendered_frame env w :
  m_size (rendered env w) = m_size w
  ∧ m_renderType (rendered env w) = m_renderType w
  ∧ m_view (rendered env w) = m_view w.
Proof.
  destruct (escapes_handler (m_renderType w) (device env)) eqn:E.
  - by rewrite rendered_fail.
  - rewrite rendered_done by done.
    destruct (size_and_type_kept
                (published env (apply_effects w rerender)
                 ++ [SetDoneRendering true; EmitDoneRendering; Update])
                (apply_effects w rerender)) as [-> ->].
    by rewrite view_untouched by apply published_sets_no_view.
Qed.

Lemma rendered_pixmap env w q :
  m_pixmap (rendered env w) !! q
  = if escapes_handler (m_renderType w) (device env) then m_pixmap w !! q
    else if decide (in_viewport (m_size w) q)
    then Some (color_of (m_renderType w)
                 (stored_count (m_renderType w) (device env)
                    (sample_at (m_view w) q.1 q.2 (m_size w))))
    else m_pixmap w !! q.
Proof.
  destruct (escapes_handler (m_renderType w) (device env)) eqn:E.
  - by rewrite rendered_fail.
  - rewrite rendered_done by done. by rewrite pixmap_of_job.
Qed.
End RenderedFacts.

(** *** The discipline of a render *)

(** C7: [rerender] sets [m_doneRendering] to false and clears the label
    before it launches the job, and [rendering()] is true exactly when
    [m_doneRendering] is false.  Whatever the device does, the job either
    runs to its end or is ended by an OpenCL error that is not a build
    failure.  In the first case [m_doneRendering] is true only in states in
    which the outcome is published: every pixel of the viewport holds the
    pen of the count stored for its sample and the label holds the timing
    text; and the job ends with [m_doneRendering] true.  In the second case
    the job has changed nothing: [m_doneRendering] stays false and the
    widget stays rendering. *)
Theorem render_session_discipline `{L : Libm} (env : Env) (w : MandelbrotWidget) :
  (∀ pre post, rerender = pre ++ Launch :: post →
     m_doneRendering (apply_effects w pre) = false
     ∧ m_debugLabel (apply_effects w pre) = NoText)
  ∧ m_doneRendering (apply_effects w rerender) = false
  ∧ m_debugLabel (apply_effects w rerender) = NoText
  ∧ (∀ w', rendering w' = true ↔ m_doneRendering w' = false)
  ∧ match render_job env (apply_effects w rerender) with
    | Done run =>
        (∀ k : nat,
           m_doneRendering
             (apply_effects (apply_effects w rerender) (take k (job_effects run)))
           = true →
           (∀ x y, 0 ≤ x < m_size w → 0 ≤ y < m_size w →
              m_pixmap
                (apply_effects (apply_effects w rerender) (take k (job_effects run)))
                !! (x, y)
              = Some (color_of (m_renderType w)
                        (stored_count (m_renderType w) (device env)
                           (sample_at (m_view w) x y (m_size w)))))
           ∧ m_debugLabel
               (apply_effects (apply_effects w rerender) (take k (job_effects run)))
             = Timing
                 match m_renderType w with
                 | CpuSingleThread => SingleThreadedCpu
                 | CpuMultiThread => MultiThreadedCpu (maxThreadCount env)
                 | Gpu => DeviceName (device_name env)
                 end (m_size w) (elapsed env))
        ∧ m_doneRendering
            (apply_effects (apply_effects w rerender) (job_effects run)) = true
        ∧ rendering (apply_effects (apply_effects w rerender) (job_effects run))
          = false
    | Fail e =>
        m_renderType w = Gpu
        ∧ (∃ code, device env = OpenCLError code ∧ e = Uncaught code)
        ∧ rendering (apply_effects w rerender) = true
    end.
Proof.
  set (w1 := apply_effects w rerender).
  assert (Hsize1 : m_size w1 = m_size w) by done.
  assert (Htype1 : m_renderType w1 = m_renderType w) by done.
  assert (Hview1 : m_view w1 = m_view w) by done.
  split; [|split; [done|split; [done|split]]].
  - intros pre post Hsplit. unfold rerender in Hsplit.
    destruct pre as [|e1 pre]; [discriminate Hsplit|]. injection Hsplit as <- Hsplit.
    destruct pre as [|e2 pre]; [discriminate Hsplit|]. injection Hsplit as <- Hsplit.
    destruct pre as [|e3 pre]; [done|]. injection Hsplit as <- Hsplit.
    destruct pre as [|e4 pre]; [discriminate Hsplit|]. injection Hsplit as <- Hsplit.
    destruct pre as [|e5 pre]; [discriminate Hsplit|]. injection Hsplit as <- Hsplit.
    by destruct pre.
  - intros w'. unfold rendering. by destruct (m_doneRendering w').
  - destruct (escapes_handler (m_renderType w1) (device env)) eqn:Hesc.
    { destruct (render_job_uncaught env w1 Hesc) as (Hgpu & code & Hdev & ->).
      split; [done|]. split; [by exists code | done]. }
    rewrite (render_job_done env w1 Hesc). cbn [job_effects].
    assert (Hfinal : ∀ x y, 0 ≤ x < m_size w → 0 ≤ y < m_size w →
      m_pixmap (apply_effects w1 (published env w1)) !! (x, y)
      = Some (color_of (m_renderType w)
                (stored_count (m_renderType w) (device env)
                   (sample_at (m_view w) x y (m_size w))))).
    { intros x y Hx Hy.
      pose proof (pixmap_of_job env w1 w1 (x, y)) as Hpx.
      rewrite decide_True in Hpx by (rewrite Hsize1; by split).
      rewrite apply_effects_app in Hpx. cbn [fst snd] in Hpx.
      by rewrite Hsize1, Htype1, Hview1 in Hpx. }
    assert (Hlabel : m_debugLabel (apply_effects w1 (published env w1))
                     = Timing
                         match m_renderType w with
                         | CpuSingleThread => SingleThreadedCpu
                         | CpuMultiThread => MultiThreadedCpu (maxThreadCount env)
                         | Gpu => DeviceName (device_name env)
                         end (m_size w) (elapsed env)).
    { unfold published. rewrite !apply_effects_app.
      rewrite text_untouched by apply drawn_points_set_no_text.
      done. }
    split; [|split].
    + intros k Hk.
      destruct (decide (k ≤ length (published env w1))%nat) as [Hle | Hgt].
      * rewrite take_app_le in Hk by done.
        rewrite done_untouched in Hk
          by (apply Forall_take, published_sets_no_done).
        done.
      * rewrite take_app_ge by lia. rewrite !apply_effects_app.
        revert Hfinal Hlabel. generalize (apply_effects w1 (published env w1)).
        intros w2 Hfinal Hlabel.
        set (j := (k - length (published env w1))%nat).
        destruct j as [|[|[|j]]]; cbn; rewrite ?take_nil; by split.
    + by rewrite apply_effects_app.
    + unfold rendering. by rewrite apply_effects_app.
Qed.

(** X6: a job that runs to its end leaves, at every pixel [(x, y)] of the
    viewport, the pen of the count its strategy stores for the sample of
    [(x, y)] (a count in 0..100, a colour with channels in 0..255), leaves
    every other pixel of the pixmap as it was, and changes neither the view
    nor the size nor the render type. *)
Theorem rendered_image `{L : Libm} (env : Env) (w : MandelbrotWidget) :
  escapes_handler (m_renderType w) (device env) = false →
  ∃ run,
    render_job env w = Done run
    ∧ (∀ x y, 0 ≤ x < m_size w → 0 ≤ y < m_size w →
         ∃ c,
           pen_color (m_renderType w)
             (stored_count (m_renderType w) (device env)
                (sample_at (m_view w) x y (m_size w))) = Done c
           ∧ m_pixmap (apply_effects w (job_effects run)) !! (x, y) = Some c
           ∧ 0 ≤ stored_count (m_renderType w) (device env)
                   (sample_at (m_view w) x y (m_size w)) ≤ 100
           ∧ 0 ≤ red c ≤ 255 ∧ 0 ≤ green c ≤ 255 ∧ 0 ≤ blue c ≤ 255)
    ∧ (∀ q, ¬ (0 ≤ q.1 < m_size w ∧ 0 ≤ q.2 < m_size w) →
         m_pixmap (apply_effects w (job_effects run)) !! q = m_pixmap w !! q)
    ∧ m_view (apply_effects w (job_effects run)) = m_view w
    ∧ m_size (apply_effects w (job_effects run)) = m_size w
    ∧ m_renderType (apply_effects w (job_effects run)) = m_renderType w.
Proof.
  intros Hcaught. eexists. split; [by apply render_job_done|].
  cbn [job_effects]. split; [|split; [|split; [|split]]].
  - intros x y Hx Hy. eexists. split; [apply pen_color_done|].
    split.
    + rewrite pixmap_of_job. by rewrite decide_True by done.
    + split; [apply stored_count_range|].
      apply color_of_valid, stored_count_range.
  - intros q Hq. rewrite pixmap_of_job. by rewrite decide_False by done.
  - apply view_untouched, published_sets_no_view.
  - apply size_and_type_kept.
  - apply size_and_type_kept.
Qed.

Lemma rendered_image_2x2 :
  ∃ run,
    @render_job textbook_libm (sample_env DeviceOk) (new_widget CpuMultiThread 3 4)
    = Done run
    ∧ m_pixmap (apply_effects (new_widget CpuMultiThread 3 4) (job_effects run))
        !! (1, 1) = Some black
    ∧ m_pixmap (apply_effects (new_widget CpuMultiThread 3 4) (job_effects run))
        !! (2, 0) = None.
Proof.
  destruct (@rendered_image textbook_libm (sample_env DeviceOk)
              (new_widget CpuMultiThread 3 4) eq_refl)
    as (run & Hjob & Hin & Hout & _).
  assert (Hsize : m_size (new_widget CpuMultiThread 3 4) = 2) by reflexivity.
  exists run. split; [exact Hjob|]. split.
  - destruct (Hin 1 1) as (c & Hc & Hpx & _); [rewrite Hsize; lia | rewrite Hsize; lia |].
    rewrite Hpx. f_equal. vm_compute in Hc. injection Hc as <-. reflexivity.
  - rewrite (Hout (2, 0)); [reflexivity|]. rewrite Hsize. cbn [fst snd]. lia.
Defined.

(** X7: from [rerender()] until the job sets [m_doneRendering], [paintEvent]
    fills the widget with the base colour; from then on it draws the
    finished pixmap, with the box behind the label.  No state of the job
    shows a pixmap that is still being painted. *)
Theorem paintEvent_never_partial `{L : Libm} (env : Env) (w : MandelbrotWidget) :
  escapes_handler (m_renderType w) (device env) = false →
  paintEvent (apply_effects w rerender) = BaseFill
  ∧ ∃ run,
      render_job env (apply_effects w rerender) = Done run
      ∧ (∀ k : nat,
           paintEvent
             (apply_effects (apply_effects w rerender) (take k (job_effects run)))
           = BaseFill
           ∨ paintEvent
               (apply_effects (apply_effects w rerender) (take k (job_effects run)))
             = Pixmap
                 (m_pixmap
                    (apply_effects (apply_effects w rerender) (job_effects run)))
                 true)
      ∧ paintEvent (apply_effects (apply_effects w rerender) (job_effects run))
        = Pixmap
            (m_pixmap (apply_effects (apply_effects w rerender) (job_effects run)))
            true.
Proof.
  intros Hcaught. split; [done|].
  assert (Hcaught1 : escapes_handler (m_renderType (apply_effects w rerender))
                       (device env) = false) by exact Hcaught.
  assert (Hentry : m_doneRendering (apply_effects w rerender) = false) by done.
  clear Hcaught. revert Hcaught1 Hentry.
  generalize (apply_effects w rerender). intros w1 Hcaught1 Hentry.
  eexists. split; [by apply (render_job_done env w1)|]. cbn [job_effects].
  assert (Hlabel : ∃ t, m_debugLabel (apply_effects w1 (published env w1)) = Timing
                          t (m_size w1) (elapsed env)).
  { unfold published. rewrite !apply_effects_app.
    rewrite text_untouched by apply drawn_points_set_no_text. cbn. by eexists. }
  destruct Hlabel as [t Hlabel].
  assert (Hfinal : ∀ j,
    paintEvent
      (apply_effects (apply_effects w1 (published env w1))
         (take (S j) [SetDoneRendering true; EmitDoneRendering; Update]))
    = Pixmap (m_pixmap (apply_effects w1 (published env w1))) true).
  { intros j. destruct j as [|[|j]]; cbn; unfold paintEvent; cbn;
      rewrite ?take_nil; by rewrite Hlabel. }
  split.
  - intros k.
    destruct (decide (k ≤ length (published env w1))%nat) as [Hle | Hgt].
    + left. rewrite take_app_le by done. unfold paintEvent.
      rewrite done_untouched by (apply Forall_take, published_sets_no_done).
      by rewrite Hentry.
    + right. rewrite take_app_ge by lia. rewrite !apply_effects_app.
      replace (k - length (published env w1))%nat
        with (S (k - length (published env w1) - 1)) by lia.
      by rewrite Hfinal.
  - rewrite apply_effects_app. exact (Hfinal 2%nat).
Qed.

Lemma paintEvent_never_partial_2x2 :
  paintEvent (apply_effects (new_widget CpuSingleThread 3 4) rerender) = BaseFill
  ∧ ∃ run,
      @render_job textbook_libm (sample_env DeviceOk)
        (apply_effects (new_widget CpuSingleThread 3 4) rerender) = Done run
      ∧ paintEvent
          (apply_effects (apply_effects (new_widget CpuSingleThread 3 4) rerender)
             (take 3 (job_effects run))) = BaseFill.
Proof.
  destruct (@paintEvent_never_partial textbook_libm (sample_env DeviceOk)
              (new_widget CpuSingleThread 3 4) eq_refl)
    as (Hentry & run & Hjob & _ & _).
  split; [exact Hentry|]. exists run. split; [exact Hjob|].
  vm_compute in Hjob. injection Hjob as <-. reflexivity.
Defined.

(** X8: the job fails exactly when it runs the device strategy and the
    OpenCL run ends in an exception other than a program build failure; the
    failure is that exception.  Every other job runs to its end. *)
Theorem render_job_fails_only_uncaught `{L : Libm} (env : Env) (w : MandelbrotWidget)
    (e : Failure) :
  render_job env w = Fail e
  ↔ m_renderType w = Gpu ∧ ∃ code, device env = OpenCLError code ∧ e = Uncaught code.
Proof.
  split.
  - intros Hfail.
    destruct (escapes_handler (m_renderType w) (device env)) eqn:E.
    + unfold escapes_handler in E.
      destruct (m_renderType w) eqn:Hrt; try done.
      destruct (device env) as [| |code] eqn:Hdev; try done.
      split; [done|]. exists code. split; [done|].
      unfold render_job in Hfail. rewrite generateGrid_done, Hrt, Hdev in Hfail.
      cbn in Hfail. by injection Hfail as <-.
    + by rewrite render_job_done in Hfail.
  - intros (Hrt & code & Hdev & ->).
    unfold render_job. rewrite generateGrid_done, Hrt, Hdev. done.
Qed.

(** X9: rendering again, with the device run ending the same way, gives the
    same pixmap: a second [rerender()] and job leave the pixmap of the first
    unchanged, whatever the pixmap held before and however long either
    render took. *)
Theorem rendered_twice `{L : Libm} (env1 env2 : Env) (w : MandelbrotWidget) :
  device env1 = device env2 →
  m_pixmap (rendered env2 (rendered env1 w)) = m_pixmap (rendered env1 w).
Proof.
  intros Hdev. apply map_eq. intros q.
  destruct (rendered_frame env1 w) as (Hsize & Hrt & Hview).
  rewrite (rendered_pixmap env2), Hsize, Hrt, Hview, <- Hdev.
  destruct (escapes_handler (m_renderType w) (device env1)) eqn:E; [done|].
  destruct (decide (in_viewport (m_size w) q)) as [Hin | Hout]; [|done].
  rewrite (rendered_pixmap env1), E. by rewrite decide_True by done.
Qed.

Lemma rendered_twice_2x2 :
  m_pixmap
    (@rendered textbook_libm
       {| device := DeviceOk; device_name := "OpenCL device";
          maxThreadCount := 4; elapsed := 900 |}
       (@rendered textbook_libm (sample_env DeviceOk) (new_widget Gpu 3 4)))
  = m_pixmap (@rendered textbook_libm (sample_env DeviceOk) (new_widget Gpu 3 4)).
Proof.
  apply (@rendered_twice textbook_libm (sample_env DeviceOk)
           {| device := DeviceOk; device_name := "OpenCL device";
              maxThreadCount := 4; elapsed := 900 |}
           (new_widget Gpu 3 4)).
  reflexivity.
Defined.

(** ** The main window *)

(** X10: [updateWidgets] sets the progress bar to the number of widgets that
    are not rendering, a value within the bar's range 0..3, and enables the
    button exactly when that number is 3, that is when no widget is
    rendering; it changes no widget and starts nothing. *)
Theorem updateWidgets_shows_widgets (mw : MainWindow) :
  progress_value (updateWidgets mw) = finished mw
  ∧ 0 ≤ progress_value (updateWidgets mw) ≤ 3
  ∧ (renderBtn_enabled (updateWidgets mw) = true
     ↔ progress_value (updateWidgets mw) = 3)
  ∧ (renderBtn_enabled (updateWidgets mw) = true
     ↔ ∀ m, rendering (widget_of mw m) = false)
  ∧ (∀ m, widget_of (updateWidgets mw) m = widget_of mw m)
  ∧ thread_pool (updateWidgets mw) = thread_pool mw
  ∧ queued_signals (updateWidgets mw) = queued_signals mw.
Proof.
  unfold updateWidgets, finished. cbn.
  destruct (rendering (m_singleThread mw)) eqn:Hs,
           (rendering (m_multiThread mw)) eqn:Hm,
           (rendering (m_compute mw)) eqn:Hc; cbn;
    (split; [done|]); (split; [lia|]); (split; [done|]);
    (split; [|split; [by intros []|done]]);
    (split; [try done; intros _ [] | intros Hall]); try done;
    first [ specialize (Hall SingleThreadWidget); cbn in Hall; congruence
          | specialize (Hall MultiThreadWidget); cbn in Hall; congruence
          | specialize (Hall ComputeWidget); cbn in Hall; congruence ].
Qed.

(** *** Calls, jobs and the pool *)

Lemma widget_of_call m es mw m' :
  widget_of (call m es mw) m'
  = if decide (m' = m) then apply_effects (widget_of mw m) es else widget_of mw m'.
Proof. by destruct m, m'. Qed.

Lemma launches_app es1 es2 : launches (es1 ++ es2) = (launches es1 + launches es2)%nat.
Proof. induction es1 as [|e es1 IH]; [done|]. destruct e; cbn; by rewrite ?IH. Qed.

Lemma emissions_app es1 es2 :
  emissions (es1 ++ es2) = (emissions es1 + emissions es2)%nat.
Proof. induction es1 as [|e es1 IH]; [done|]. destruct e; cbn; by rewrite ?IH. Qed.

Lemma launches_none es : Launch ∉ es → launches es = 0%nat.
Proof.
  induction es as [|e es IH]; intros Hno; [done|].
  assert (launches es = 0%nat) as Hes by (apply IH; intros ?; apply Hno; by right).
  destruct e; cbn; try done. exfalso. apply Hno. by left.
Qed.

Lemma emissions_none es : EmitDoneRendering ∉ es → emissions es = 0%nat.
Proof.
  induction es as [|e es IH]; intros Hno; [done|].
  assert (emissions es = 0%nat) as Hes by (apply IH; intros ?; apply Hno; by right).
  destruct e; cbn; try done. exfalso. apply Hno. by left.
Qed.

Lemma published_quiet `{L : Libm} env w :
  (Launch ∉ published env w) ∧ (EmitDoneRendering ∉ published env w).
Proof.
  unfold published. split; intros Hin; rewrite !elem_of_app in Hin;
    destruct Hin as [Hin | [Hin | Hin]];
    try (by not_in_list Hin);
    try (unfold diagnostics in Hin;
         destruct (m_renderType w), (device env); by not_in_list Hin);
    by apply elem_of_drawn_points in Hin as (i & r & p & _ & _ & _ & ?).
Qed.

(** A job that runs to its end launches nothing and emits [doneRendering]
    once. *)
Lemma job_effects_signals `{L : Libm} env w :
  launches (published env w ++ [SetDoneRendering true; EmitDoneRendering; Update])
  = 0%nat
  ∧ emissions (published env w ++ [SetDoneRendering true; EmitDoneRendering; Update])
    = 1%nat.
Proof.
  destruct (published_quiet env w) as [Hl He].
  rewrite launches_app, emissions_app, launches_none, emissions_none by done.
  done.
Qed.

(** A call that emits no [doneRendering] leaves the queue as it is. *)
Lemma call_quiet m es mw :
  emissions es = 0%nat → queued_signals (call m es mw) = queued_signals mw.
Proof.
  intros He. cbn [call queued_signals]. rewrite He.
  destruct (doneRendering_connected _ _); lia.
Qed.

Lemma connected_when_returned m : doneRendering_connected Returned m = true.
Proof. by destruct m. Qed.

Lemma in_event_loop_returned mw :
  in_event_loop mw = true → constructor_at mw = Returned.
Proof. unfold in_event_loop. by destruct (constructor_at mw). Qed.

Lemma take_job_Some m pool : ∀ pool',
  take_job m pool = Some pool' → pool ≡ₚ m :: pool'.
Proof.
  induction pool as [|m' pool IH]; intros pool' Htake; [done|].
  cbn in Htake. destruct (decide (m' = m)) as [-> | Hne].
  - by injection Htake as <-.
  - destruct (take_job m pool) as [rest|]; [|done]. injection Htake as <-.
    rewrite (IH rest eq_refl). apply Permutation_swap.
Qed.



Section WindowFacts.
Context `{L : Libm}.

(** The step of a job, by how its OpenCL run ends. *)
Lemma job_runs_spec m env mw pool' :
  take_job m (thread_pool mw) = Some pool' →
  job_runs m env mw
  = let mw' :=
      {| m_singleThread := m_singleThread mw;
         m_multiThread := m_multiThread mw;
         m_compute := m_compute mw;
         renderBtn_enabled := renderBtn_enabled mw;
         progress_value := progress_value mw;
         thread_pool := pool';
         queued_signals := queued_signals mw;
         constructor_at := constructor_at mw |} in
    if escapes_handler (m_renderType (widget_of mw m)) (device env) then mw'
    else call m (published env (widget_of mw m)
                 ++ [SetDoneRendering true; EmitDoneRendering; Update]) mw'.
Proof.
  intros Htake. unfold job_runs. rewrite Htake. cbn zeta.
  destruct (escapes_handler (m_renderType (widget_of mw m)) (device env)) eqn:E.
  - by destruct (render_job_fail env (widget_of mw m) E) as [code ->].
  - by rewrite render_job_done.
Qed.

Lemma job_done_widget env w :
  rendering
    (apply_effects w
       (published env w ++ [SetDoneRendering true; EmitDoneRendering; Update]))
  = false.
Proof. unfold rendering. by rewrite apply_effects_app. Qed.

(** A job that runs to its end: its widget has finished, the other widgets
    and the controls are as they were, and its [doneRendering] is queued
    exactly when the signal of its widget is connected. *)
Lemma job_runs_done m env mw pool' :
  take_job m (thread_pool mw) = Some pool' →
  escapes_handler (m_renderType (widget_of mw m)) (device env) = false →
  thread_pool (job_runs m env mw) = pool'
  ∧ queued_signals (job_runs m env mw)
    = (if doneRendering_connected (constructor_at mw) m
       then S (queued_signals mw) else queued_signals mw)
  ∧ constructor_at (job_runs m env mw) = constructor_at mw
  ∧ renderBtn_enabled (job_runs m env mw) = renderBtn_enabled mw
  ∧ progress_value (job_runs m env mw) = progress_value mw
  ∧ rendering (widget_of (job_runs m env mw) m) = false
  ∧ ∀ m', m' ≠ m → widget_of (job_runs m env mw) m' = widget_of mw m'.
Proof.
  intros Htake Hcaught. rewrite (job_runs_spec m env mw pool' Htake). cbn zeta.
  rewrite Hcaught.
  destruct (job_effects_signals env (widget_of mw m)) as [Hl He].
  pose proof (job_done_widget env (widget_of mw m)) as Hdone.
  revert Hl He Hdone.
  generalize (published env (widget_of mw m)
              ++ [SetDoneRendering true; EmitDoneRendering; Update]).
  intros es Hl He Hdone.
  split; [cbn [call thread_pool]; by rewrite Hl, app_nil_r|].
  split.
  { cbn [call queued_signals constructor_at]. rewrite He.
    destruct (doneRendering_connected _ _); lia. }
  split; [done|]. split; [done|]. split; [done|]. split.
  - rewrite widget_of_call, decide_True by done. by destruct m.
  - intros m' Hne. rewrite widget_of_call, decide_False by done. by destruct m'.
Qed.
End WindowFacts.

(** *** The invariant of the window *)

Lemma window_invariant_new sw sh :
  window_invariant (m_size (new_widget Gpu sw sh)) (new_main_window sw sh).
Proof.
  unfold window_invariant. split; [done|]. split; [by intros []|].
  split; [by intros []|]. split.
  { cbn. compute_done. }
  split; [by intros []|]. split; done.
Qed.

Lemma constructor_invariant size mw :
  window_invariant size mw → window_invariant size (constructor_connects mw).
Proof.
  intros (Htypes & Hsize & Hview & Hnodup & Hpool & Hbtn & Hret).
  unfold window_invariant.
  split; [done|].
  split; [intros m; pose proof (Hsize m) as H; by destruct m|].
  split; [intros m; pose proof (Hview m) as H; by destruct m|]. split; [done|].
  split; [intros m Hin; pose proof (Hpool m Hin) as H; by destruct m|].
  split; [intros Hen m; pose proof (Hbtn Hen m) as H; by destruct m|].
  intros Hen. cbn. by rewrite (Hret Hen).
Qed.

Lemma radio_invariant size view checked mw :
  window_invariant size mw → window_invariant size (radio_clicked view checked mw).
Proof.
  intros (Htypes & Hsize & Hview & Hnodup & Hpool & Hbtn & Hret).
  destruct checked; [|done]. unfold radio_clicked, window_invariant.
  cbn [negb call m_singleThread m_multiThread m_compute renderBtn_enabled
       thread_pool constructor_at widget_of].
  change (launches (setView view)) with 0%nat. cbn [replicate].
  rewrite !app_nil_r.
  split; [done|].
  split; [intros m; pose proof (Hsize m) as H; by destruct m|].
  split; [by intros []|]. split; [done|].
  split; [intros m Hin; pose proof (Hpool m Hin) as H; by destruct m|].
  split; [intros Hen m; pose proof (Hbtn Hen m) as H; by destruct m|].
  exact Hret.
Qed.

Lemma press_invariant size mw :
  window_invariant size mw →
  window_invariant size (if renderBtn_enabled mw then renderBtn_clicked mw else mw).
Proof.
  intros Hinv. destruct (renderBtn_enabled mw) eqn:Hen; [|done].
  destruct Hinv as (Htypes & Hsize & Hview & Hnodup & Hpool & Hbtn & Hret).
  assert (Hempty : thread_pool mw = []).
  { destruct (thread_pool mw) as [|m pool] eqn:E; [done|].
    assert (rendering (widget_of mw m) = true) by (apply Hpool; by left).
    assert (rendering (widget_of mw m) = false) by (by apply Hbtn).
    congruence. }
  unfold renderBtn_clicked, window_invariant.
  cbn [call m_singleThread m_multiThread m_compute renderBtn_enabled
       thread_pool constructor_at widget_of].
  rewrite Hempty. change (launches rerender) with 1%nat. cbn [replicate app].
  split; [done|].
  split; [intros m; pose proof (Hsize m) as H; by destruct m|].
  split; [intros m; pose proof (Hview m) as H; by destruct m|].
  split; [compute_done|].
  split; [by intros []|]. split; done.
Qed.

Lemma signal_invariant size mw :
  window_invariant size mw →
  constructor_at mw = Returned →
  window_invariant size (signal_delivered mw).
Proof.
  intros Hinv Hreturned. unfold signal_delivered.
  destruct (queued_signals mw) as [|n]; [done|].
  destruct Hinv as (Htypes & Hsize & Hview & Hnodup & Hpool & Hbtn & Hret).
  unfold window_invariant, updateWidgets.
  cbn [m_singleThread m_multiThread m_compute renderBtn_enabled thread_pool
       constructor_at widget_of].
  split; [done|].
  split; [intros m; pose proof (Hsize m) as H; by destruct m|].
  split; [intros m; pose proof (Hview m) as H; by destruct m|]. split; [done|].
  split; [intros m Hin; pose proof (Hpool m Hin) as H; by destruct m|].
  split; [|done].
  destruct (rendering (m_singleThread mw)) eqn:Hs,
           (rendering (m_multiThread mw)) eqn:Hm,
           (rendering (m_compute mw)) eqn:Hc; cbn;
    first [done | by intros _ []].
Qed.

Section InvariantOfJobs.
Context `{L : Libm}.

Lemma job_invariant size m env mw :
  window_invariant size mw → window_invariant size (job_runs m env mw).
Proof.
  intros Hinv.
  destruct (take_job m (thread_pool mw)) as [pool'|] eqn:Htake;
    [|unfold job_runs; by rewrite Htake].
  rewrite (job_runs_spec m env mw pool' Htake). cbn zeta.
  destruct Hinv as (Htypes & Hsize & Hview & Hnodup & Hpool & Hbtn & Hret).
  pose proof (take_job_Some _ _ _ Htake) as Hperm.
  assert (Hnodup' : NoDup (m :: pool')) by (by rewrite <- Hperm).
  apply NoDup_cons in Hnodup' as [Hfresh Hnodup'].
  assert (Hsub : ∀ m', m' ∈ pool' → m' ∈ thread_pool mw).
  { intros m' Hin. rewrite Hperm. by right. }
  destruct (escapes_handler (m_renderType (widget_of mw m)) (device env)) eqn:E.
  - (* the job ends in an uncaught exception *)
    unfold window_invariant.
    cbn [m_singleThread m_multiThread m_compute renderBtn_enabled thread_pool
         constructor_at widget_of].
    split; [done|].
    split; [intros m'; pose proof (Hsize m') as H; by destruct m'|].
    split; [intros m'; pose proof (Hview m') as H; by destruct m'|]. split; [done|].
    split; [intros m' Hin; pose proof (Hpool m' (Hsub m' Hin)) as H; by destruct m'|].
    split; [intros Hen m'; pose proof (Hbtn Hen m') as H; by destruct m'|].
    exact Hret.
  - (* the job runs to its end *)
    destruct (job_effects_signals env (widget_of mw m)) as [Hl He].
    destruct (size_and_type_kept
                (published env (widget_of mw m)
                 ++ [SetDoneRendering true; EmitDoneRendering; Update])
                (widget_of mw m)) as [Hfsize Hftype].
    pose proof (view_untouched _ (widget_of mw m)
                  (published_sets_no_view env (widget_of mw m))) as Hfview.
    pose proof (job_done_widget env (widget_of mw m)) as Hfdone.
    revert Hl He Hfsize Hftype Hfview Hfdone.
    generalize (published env (widget_of mw m)
                ++ [SetDoneRendering true; EmitDoneRendering; Update]).
    intros es Hl He Hfsize Hftype Hfview Hfdone.
    set (mw' := {| m_singleThread := m_singleThread mw;
                   m_multiThread := m_multiThread mw;
                   m_compute := m_compute mw;
                   renderBtn_enabled := renderBtn_enabled mw;
                   progress_value := progress_value mw;
                   thread_pool := pool';
                   queued_signals := queued_signals mw;
                   constructor_at := constructor_at mw |}).
    assert (Hw : ∀ m', widget_of (call m es mw') m'
                       = if decide (m' = m) then apply_effects (widget_of mw m) es
                         else widget_of mw m')
      by (intros m'; by destruct m, m').
    assert (Ht : ∀ m', m_renderType (widget_of (call m es mw') m')
                       = render_type_of m').
    { destruct Htypes as (Hs & Hm & Hc). intros m'. rewrite Hw.
      case_decide as Heq; [subst m'; rewrite Hftype; by destruct m | by destruct m']. }
    assert (Hpool_eq : thread_pool (call m es mw') = pool').
    { cbn [call thread_pool mw']. by rewrite Hl, app_nil_r. }
    unfold window_invariant.
    split.
    { split; [exact (Ht SingleThreadWidget)|].
      split; [exact (Ht MultiThreadWidget) | exact (Ht ComputeWidget)]. }
    split.
    { intros m'. rewrite Hw. case_decide as Heq; [by rewrite Hfsize | done]. }
    split.
    { intros m'.
      change (m_singleThread (call m es mw'))
        with (widget_of (call m es mw') SingleThreadWidget).
      rewrite !Hw.
      destruct (decide (m' = m)) as [-> | Hne1],
               (decide (SingleThreadWidget = m)) as [<- | Hne2];
        rewrite ?Hfview; first [done | apply Hview | symmetry; apply Hview]. }
    split; [by rewrite Hpool_eq|].
    split.
    { intros m'. rewrite Hpool_eq. intros Hin.
      rewrite Hw. case_decide as Heq; [by rewrite Heq in Hin | by apply Hpool, Hsub]. }
    split.
    { intros Hen m'. rewrite Hw.
      case_decide as Heq; [done | by apply Hbtn]. }
    exact Hret.
Qed.

Lemma window_invariant_step size mw ev :
  window_invariant size mw → window_invariant size (step mw ev).
Proof.
  intros Hinv. destruct ev as [| checked | checked | | m env |]; cbn [step].
  - by apply constructor_invariant.
  - destruct (in_event_loop mw); [by apply radio_invariant | done].
  - destruct (in_event_loop mw); [by apply radio_invariant | done].
  - destruct (in_event_loop mw); [by apply press_invariant | done].
  - by apply job_invariant.
  - destruct (in_event_loop mw) eqn:Hloop; [|done].
    apply signal_invariant; [done | by apply in_event_loop_returned].
Qed.

Lemma window_invariant_run size evs : ∀ mw,
  window_invariant size mw → window_invariant size (run_events mw evs).
Proof.
  induction evs as [|ev evs IH]; intros mw Hinv; [done|].
  cbn. by apply IH, window_invariant_step.
Qed.
End InvariantOfJobs.

(** X11: in every state the window reaches, the pool holds at most one job
    per widget, and only of widgets that are rendering; and whenever the
    button is enabled the pool is empty and no widget is rendering.  Since a
    disabled button delivers no click, [rerender()] is never called on a
    widget whose job is still outstanding. *)
Theorem one_job_per_widget `{L : Libm} (screen_width screen_height : Z)
    (evs : list Event) :
  NoDup (thread_pool (run_events (new_main_window screen_width screen_height) evs))
  ∧ (∀ m, m ∈ thread_pool (run_events (new_main_window screen_width screen_height) evs)
          → rendering
              (widget_of (run_events (new_main_window screen_width screen_height) evs) m)
            = true)
  ∧ (renderBtn_enabled (run_events (new_main_window screen_width screen_height) evs)
     = true →
     thread_pool (run_events (new_main_window screen_width screen_height) evs) = []
     ∧ ∀ m, rendering
              (widget_of (run_events (new_main_window screen_width screen_height) evs) m)
            = false).
Proof.
  destruct (window_invariant_run _ evs _
              (window_invariant_new screen_width screen_height))
    as (_ & _ & _ & Hnodup & Hpool & Hbtn & _).
  split; [done|]. split; [done|]. intros Hen. split; [|by apply Hbtn].
  destruct (thread_pool _) as [|m pool] eqn:E; [done|].
  assert (m ∈ m :: pool) as Hin by (by left).
  apply Hpool in Hin. rewrite (Hbtn Hen m) in Hin. done.
Qed.

(** X12: in every state the window reaches, the three widgets have the
    render types they were built with, the size the constructor computed
    from the screen, and one and the same view. *)
Theorem widgets_stay_in_step `{L : Libm} (screen_width screen_height : Z)
    (evs : list Event) :
  m_renderType (m_singleThread (run_events (new_main_window screen_width screen_height) evs))
  = CpuSingleThread
  ∧ m_renderType
      (m_multiThread (run_events (new_main_window screen_width screen_height) evs))
    = CpuMultiThread
  ∧ m_renderType (m_compute (run_events (new_main_window screen_width screen_height) evs))
    = Gpu
  ∧ ∀ m,
      m_size (widget_of (run_events (new_main_window screen_width screen_height) evs) m)
      = to_int (of_int (Z.min screen_width screen_height) * 0.9)
      ∧ m_view (widget_of (run_events (new_main_window screen_width screen_height) evs) m)
        = m_view
            (m_singleThread (run_events (new_main_window screen_width screen_height) evs)).
Proof.
  destruct (window_invariant_run _ evs _
              (window_invariant_new screen_width screen_height))
    as ((Hs & Hm & Hc) & Hsize & Hview & _).
  split; [done|]. split; [done|]. split; [done|].
  intros m. split; [apply Hsize | apply Hview].
Qed.

(** *** When the controls are brought up to date *)

Lemma controls_current_frame mw mw' :
  (∀ m, rendering (widget_of mw' m) = rendering (widget_of mw m)) →
  progress_value mw' = progress_value mw →
  renderBtn_enabled mw' = renderBtn_enabled mw →
  controls_current mw → controls_current mw'.
Proof.
  intros Hw Hp Hb. unfold controls_current, finished.
  pose proof (Hw SingleThreadWidget) as H1.
  pose proof (Hw MultiThreadWidget) as H2.
  pose proof (Hw ComputeWidget) as H3. cbn [widget_of] in H1, H2, H3.
  by rewrite H1, H2, H3, Hp, Hb.
Qed.

Lemma constructor_settling mw : settling mw → settling (constructor_connects mw).
Proof.
  intros [Hq | (Hret & Hrest)]; [by left|]. right.
  split; [cbn; by rewrite Hret|].
  destruct Hrest as [Hcur | Hjob]; [left | by right].
  by apply (controls_current_frame mw).
Qed.

Lemma radio_settling view checked mw :
  settling mw → settling (radio_clicked view checked mw).
Proof.
  intros Hs. destruct checked; [|done]. unfold radio_clicked. cbn [negb].
  destruct Hs as [Hq | (Hret & Hrest)].
  - left. by rewrite !call_quiet.
  - right. split; [done|]. destruct Hrest as [Hcur | (m & Hin & Hne)].
    + left. apply (controls_current_frame mw); [by intros [] | done | done | done].
    + right. exists m. split; [|done].
      cbn [call thread_pool]. change (launches (setView view)) with 0%nat.
      cbn [replicate]. by rewrite !app_nil_r.
Qed.

Lemma press_settling mw :
  constructor_at mw = Returned → settling (renderBtn_clicked mw).
Proof.
  intros Hret. right. split; [done|]. right. exists SingleThreadWidget.
  split; [|done]. unfold renderBtn_clicked. cbn [call thread_pool].
  change (launches rerender) with 1%nat. cbn [replicate].
  rewrite !elem_of_app, !list_elem_of_singleton. auto.
Qed.

Lemma signal_settling mw :
  constructor_at mw = Returned → settling mw → settling (signal_delivered mw).
Proof.
  intros Hret Hs. unfold signal_delivered.
  destruct (queued_signals mw) as [|n] eqn:Hq; [done|].
  right. split; [done|]. left.
  unfold controls_current, finished, updateWidgets.
  cbn [m_singleThread m_multiThread m_compute renderBtn_enabled progress_value].
  by destruct (rendering (m_singleThread mw)), (rendering (m_multiThread mw)),
              (rendering (m_compute mw)).
Qed.

Section Settling.
Context `{L : Libm}.

Lemma job_settling size m env mw :
  window_invariant size mw → settling mw → settling (job_runs m env mw).
Proof.
  intros ((Hs1 & Hm1 & Hc1) & _) Hs.
  destruct (take_job m (thread_pool mw)) as [pool'|] eqn:Htake;
    [|unfold job_runs; by rewrite Htake].
  pose proof (take_job_Some _ _ _ Htake) as Hperm.
  destruct (escapes_handler (m_renderType (widget_of mw m)) (device env)) eqn:E.
  - (* an uncaught exception: the job is the device widget's and changes
       nothing but the pool *)
    rewrite (job_runs_spec m env mw pool' Htake). cbn zeta. rewrite E.
    assert (m = ComputeWidget) as ->.
    { unfold escapes_handler in E.
      destruct m; cbn [widget_of] in E; rewrite ?Hs1, ?Hm1 in E; done. }
    destruct Hs as [Hq | (Hret & [Hcur | (m' & Hin & Hne)])].
    + by left.
    + right. split; [done|]. by left.
    + right. split; [done|]. right. exists m'. split; [|done].
      cbn [thread_pool]. rewrite Hperm in Hin.
      by apply elem_of_cons in Hin as [-> | Hin].
  - (* the job runs to its end and emits *)
    destruct (job_runs_done m env mw pool' Htake E) as (_ & Hq' & _).
    left. rewrite Hq'.
    destruct Hs as [Hq | (Hret & _)].
    + destruct (doneRendering_connected _ _); lia.
    + rewrite Hret, connected_when_returned. lia.
Qed.

Lemma settling_step size mw ev :
  window_invariant size mw → settling mw → settling (step mw ev).
Proof.
  intros Hinv Hs. destruct ev as [| checked | checked | | m env |]; cbn [step].
  - by apply constructor_settling.
  - destruct (in_event_loop mw); [by apply radio_settling | done].
  - destruct (in_event_loop mw); [by apply radio_settling | done].
  - destruct (in_event_loop mw) eqn:Hloop; [|done].
    destruct (renderBtn_enabled mw); [|done].
    by apply press_settling, in_event_loop_returned.
  - by apply (job_settling size).
  - destruct (in_event_loop mw) eqn:Hloop; [|done].
    apply signal_settling; [by apply in_event_loop_returned | done].
Qed.

Lemma settling_run size evs : ∀ mw,
  window_invariant size mw → settling mw → settling (run_events mw evs).
Proof.
  induction evs as [|ev evs IH]; intros mw Hinv Hs; [done|].
  cbn. apply IH; [by apply window_invariant_step | by apply (settling_step size)].
Qed.

(** At rest a settling window has its controls current. *)
Lemma settling_at_rest mw :
  settling mw → thread_pool mw = [] → queued_signals mw = 0%nat →
  controls_current mw.
Proof.
  intros [Hq | (_ & [Hcur | (m & Hin & _)])] Hpool Hsig; [lia | done |].
  rewrite Hpool in Hin. by apply elem_of_nil in Hin.
Qed.
End Settling.

(** X13: once a [doneRendering] is queued for [updateWidgets], that is once
    a job has emitted it with the signal of its widget connected, the
    controls are current whenever the window comes to rest afterwards: with
    no job in the pool and no signal queued, the progress bar shows the
    number of widgets that are not rendering, and the button is enabled
    exactly when none is.  An emission that comes before the constructor
    has connected the signal has no receiver and is lost. *)
Theorem controls_current_at_rest `{L : Libm} (screen_width screen_height : Z)
    (before after : list Event) :
  (0 < queued_signals
         (run_events (new_main_window screen_width screen_height) before))%nat →
  thread_pool
    (run_events (new_main_window screen_width screen_height) (before ++ after)) = [] →
  queued_signals
    (run_events (new_main_window screen_width screen_height) (before ++ after))
  = 0%nat →
  progress_value
    (run_events (new_main_window screen_width screen_height) (before ++ after))
  = finished
      (run_events (new_main_window screen_width screen_height) (before ++ after))
  ∧ (renderBtn_enabled
       (run_events (new_main_window screen_width screen_height) (before ++ after))
     = true
     ↔ ∀ m, rendering
              (widget_of
                 (run_events (new_main_window screen_width screen_height)
                    (before ++ after)) m)
            = false).
Proof.
  intros Hqueued. unfold run_events. rewrite foldl_app.
  fold (run_events (new_main_window screen_width screen_height) before).
  pose proof (window_invariant_run _ before _
                (window_invariant_new screen_width screen_height)) as Hinv.
  revert Hqueued Hinv.
  generalize (run_events (new_main_window screen_width screen_height) before).
  intros mw0 Hqueued Hinv. fold (run_events mw0 after). intros Hpool Hsig.
  assert (Hs : settling (run_events mw0 after)).
  { apply (settling_run _ after mw0 Hinv). by left. }
  destruct (settling_at_rest _ Hs Hpool Hsig) as [Hprog Hen].
  split; [done|]. rewrite Hen. unfold finished. split.
  - intros Hfin m.
    destruct (rendering (m_singleThread _)) eqn:H1,
             (rendering (m_multiThread _)) eqn:H2,
             (rendering (m_compute _)) eqn:H3; try done.
    by destruct m.
  - intros Hall.
    pose proof (Hall SingleThreadWidget) as H1.
    pose proof (Hall MultiThreadWidget) as H2.
    pose proof (Hall ComputeWidget) as H3. cbn [widget_of] in H1, H2, H3.
    by rewrite H1, H2, H3.
Qed.

Lemma controls_current_at_rest_first_round :
  thread_pool
    (@run_events textbook_libm (new_main_window 3 4)
       ((constructor_returns ++ [JobRuns MultiThreadWidget (sample_env DeviceOk)])
        ++ [JobRuns ComputeWidget (sample_env DeviceOk);
            JobRuns SingleThreadWidget (sample_env DeviceOk);
            SignalDelivered; SignalDelivered; SignalDelivered])) = []
  ∧ progress_value
      (@run_events textbook_libm (new_main_window 3 4)
         ((constructor_returns ++ [JobRuns MultiThreadWidget (sample_env DeviceOk)])
          ++ [JobRuns ComputeWidget (sample_env DeviceOk);
              JobRuns SingleThreadWidget (sample_env DeviceOk);
              SignalDelivered; SignalDelivered; SignalDelivered])) = 3
  ∧ renderBtn_enabled
      (@run_events textbook_libm (new_main_window 3 4)
         ((constructor_returns ++ [JobRuns MultiThreadWidget (sample_env DeviceOk)])
          ++ [JobRuns ComputeWidget (sample_env DeviceOk);
              JobRuns SingleThreadWidget (sample_env DeviceOk);
              SignalDelivered; SignalDelivered; SignalDelivered])) = true.
Proof.
  destruct (@controls_current_at_rest textbook_libm 3 4
              (constructor_returns ++ [JobRuns MultiThreadWidget (sample_env DeviceOk)])
              [JobRuns ComputeWidget (sample_env DeviceOk);
               JobRuns SingleThreadWidget (sample_env DeviceOk);
               SignalDelivered; SignalDelivered; SignalDelivered])
    as [Hprog Hen].
  - vm_compute. lia.
  - reflexivity.
  - reflexivity.
  - split; [reflexivity|]. split; [rewrite Hprog; reflexivity|].
    apply Hen. by intros [].
Defined.

(** *** Jobs that finish before the constructor connects their signal *)

Section Early.
Context `{L : Libm}.


End Early.



(** *** A device job that ends in an uncaught exception *)

Section Locked.
Context `{L : Libm}.


End Locked.



(** *** A round of rendering *)

Section Round.
Context `{L : Libm}.

Lemma round_progress size view mw1 :
  window_invariant size mw1 →
  m_view (m_singleThread mw1) = view →
  (∀ m, m ∈ thread_pool mw1) →
  ∀ round, Forall (fun ev => round_event ev = true) round →
    m_view (m_singleThread (run_events mw1 round)) = view
    ∧ ∀ m, m ∈ thread_pool (run_events mw1 round)
           ∨ (rendering (widget_of (run_events mw1 round) m) = false
              ∧ ∃ env, JobRuns m env ∈ round
                       ∧ image_shown m env size view (run_events mw1 round)).
Proof.
  intros Hinv1 Hview1 Hall1 round.
  induction round as [|ev round IH] using rev_ind; intros Hround.
  { split; [done|]. intros m. left. apply Hall1. }
  apply Forall_app in Hround as [Hround Hev].
  apply Forall_inv in Hev.
  destruct (IH Hround) as [Hview Hmembers]. clear IH.
  pose proof (window_invariant_run size round mw1 Hinv1)
    as ((Hs & Hm & Hc) & Hsize & Hviews & Hnodup & Hpool & Hbtn & Hret).
  unfold run_events in *. rewrite foldl_snoc.
  set (mw := foldl step mw1 round) in *.
  assert (Hweaken : ∀ m,
    (rendering (widget_of mw m) = false
     ∧ ∃ env, JobRuns m env ∈ round ∧ image_shown m env size view mw) →
    rendering (widget_of mw m) = false
    ∧ ∃ env, JobRuns m env ∈ round ++ [ev] ∧ image_shown m env size view mw).
  { intros m (Hdone & env & Hin & Himg). split; [done|]. exists env.
    split; [|done]. apply elem_of_app. by left. }
  assert (Hsame : ∀ m',
    m' ∈ thread_pool mw
    ∨ (rendering (widget_of mw m') = false
       ∧ ∃ env, JobRuns m' env ∈ round ++ [ev] ∧ image_shown m' env size view mw)).
  { intros m'. destruct (Hmembers m') as [Hin | Hdone]; [by left|].
    right. by apply Hweaken. }
  destruct ev as [| checked | checked | | m env |];
    try discriminate Hev; cbn [step].
  - (* a job runs *)
    destruct (take_job m (thread_pool mw)) as [pool'|] eqn:Htake.
    2:{ unfold job_runs. by rewrite Htake. }
    rewrite (job_runs_spec m env mw pool' Htake). cbn zeta.
    pose proof (take_job_Some _ _ _ Htake) as Hperm.
    assert (Hkeep : ∀ m', m' ∈ thread_pool mw → m' ≠ m → m' ∈ pool').
    { intros m' Hin Hne. rewrite Hperm in Hin.
      by apply elem_of_cons in Hin as [-> | Hin]. }
    assert (Htype : m_renderType (widget_of mw m) = render_type_of m)
      by (by destruct m).
    assert (Hcaught : escapes_handler (m_renderType (widget_of mw m)) (device env)
                      = false).
    { rewrite Htype. destruct m; cbn in Hev |- *; try done.
      by apply negb_true_iff in Hev. }
    rewrite Hcaught.
    set (es := published env (widget_of mw m)
               ++ [SetDoneRendering true; EmitDoneRendering; Update]).
    destruct (job_effects_signals env (widget_of mw m)) as [Hl _]. fold es in Hl.
    assert (Hw : ∀ m',
      widget_of
        (call m es
           {| m_singleThread := m_singleThread mw;
              m_multiThread := m_multiThread mw;
              m_compute := m_compute mw;
              renderBtn_enabled := renderBtn_enabled mw;
              progress_value := progress_value mw;
              thread_pool := pool';
              queued_signals := queued_signals mw;
              constructor_at := constructor_at mw |}) m'
      = if decide (m' = m) then apply_effects (widget_of mw m) es
        else widget_of mw m').
    { intros m'. rewrite widget_of_call. by destruct m. }
    split.
    { pose proof (Hw SingleThreadWidget) as H1. cbn [widget_of] in H1.
      rewrite H1. case_decide; [|done]. subst m.
      unfold es. by rewrite view_untouched by apply published_sets_no_view. }
    intros m'. cbn [call thread_pool]. rewrite Hl, app_nil_r.
    destruct (decide (m' = m)) as [-> | Hne].
    + right. rewrite Hw, decide_True by done.
      split; [apply job_done_widget|]. exists env.
      split; [apply elem_of_app; right; by apply list_elem_of_singleton|].
      intros x y Hx Hy. rewrite Hw, decide_True by done.
      unfold es. rewrite pixmap_of_job.
      rewrite decide_True by (rewrite Hsize; by split).
      by rewrite Htype, Hsize, (Hviews m), Hview.
    + destruct (Hmembers m') as [Hin | Hdone]; [left; by apply Hkeep|].
      right. apply Hweaken in Hdone as (Hdone & env' & Hin & Himg).
      rewrite Hw, decide_False by done. split; [done|]. exists env'.
      split; [done|]. intros x y Hx Hy. rewrite Hw, decide_False by done.
      by apply Himg.
  - (* a signal is delivered *)
    destruct (in_event_loop mw); [|done]. unfold signal_delivered.
    destruct (queued_signals mw) as [|n]; [done|].
    split; [done|]. intros m'. destruct (Hsame m') as [Hin | Hdone]; [by left|].
    right. destruct Hdone as (Hdone & env' & Hin & Himg).
    split; [by destruct m'|]. exists env'. split; [done|].
    intros x y Hx Hy. destruct m'; by apply Himg.
Qed.
End Round.

(** X15: a round of rendering.  When the button is enabled and pressed, and
    then only jobs run (none ending in an uncaught exception) and signals
    are delivered until the pool is empty and no signal is queued, the
    button is enabled again, the progress bar shows 3, and every widget has
    finished and holds, at each pixel of the viewport, the pen of the count
    that its own strategy stores for that pixel's sample in the view chosen
    before the press. *)
Theorem round_shows_view `{L : Libm} (screen_width screen_height : Z)
    (before round : list Event) :
  renderBtn_enabled (run_events (new_main_window screen_width screen_height) before)
  = true →
  Forall (fun ev => round_event ev = true) round →
  thread_pool
    (run_events (new_main_window screen_width screen_height)
       (before ++ RenderBtnPressed :: round)) = [] →
  queued_signals
    (run_events (new_main_window screen_width screen_height)
       (before ++ RenderBtnPressed :: round)) = 0%nat →
  renderBtn_enabled
    (run_events (new_main_window screen_width screen_height)
       (before ++ RenderBtnPressed :: round)) = true
  ∧ progress_value
      (run_events (new_main_window screen_width screen_height)
         (before ++ RenderBtnPressed :: round)) = 3
  ∧ ∀ m,
      rendering
        (widget_of
           (run_events (new_main_window screen_width screen_height)
              (before ++ RenderBtnPressed :: round)) m) = false
      ∧ ∃ env,
          JobRuns m env ∈ round
          ∧ ∀ x y,
              0 ≤ x < to_int (of_int (Z.min screen_width screen_height) * 0.9) →
              0 ≤ y < to_int (of_int (Z.min screen_width screen_height) * 0.9) →
              m_pixmap
                (widget_of
                   (run_events (new_main_window screen_width screen_height)
                      (before ++ RenderBtnPressed :: round)) m) !! (x, y)
              = Some
                  (color_of (render_type_of m)
                     (stored_count (render_type_of m) (device env)
                        (sample_at
                           (m_view
                              (m_singleThread
                                 (run_events
                                    (new_main_window screen_width screen_height)
                                    before)))
                           x y
                           (to_int
                              (of_int (Z.min screen_width screen_height) * 0.9))))).
Proof.
  intros Hen Hround. unfold run_events. rewrite foldl_app. cbn [foldl step].
  fold (run_events (new_main_window screen_width screen_height) before).
  pose proof (window_invariant_run _ before _
                (window_invariant_new screen_width screen_height)) as Hinv0.
  revert Hen Hinv0.
  generalize (run_events (new_main_window screen_width screen_height) before).
  change (m_size (new_widget Gpu screen_width screen_height))
    with (to_int (of_int (Z.min screen_width screen_height) * 0.9)).
  generalize (to_int (of_int (Z.min screen_width screen_height) * 0.9)).
  intros size mw0 Hen Hinv0.
  assert (Hret : constructor_at mw0 = Returned).
  { destruct Hinv0 as (_ & _ & _ & _ & _ & _ & Hret). by apply Hret. }
  unfold in_event_loop. rewrite Hret, Hen.
  fold (run_events (renderBtn_clicked mw0) round).
  intros Hpool Hsig.
  assert (Hinv1 : window_invariant size (renderBtn_clicked mw0)).
  { pose proof (press_invariant size mw0 Hinv0) as H. by rewrite Hen in H. }
  assert (Hall1 : ∀ m, m ∈ thread_pool (renderBtn_clicked mw0)).
  { intros m. unfold renderBtn_clicked. cbn [call thread_pool].
    change (launches rerender) with 1%nat. cbn [replicate].
    rewrite !elem_of_app, !list_elem_of_singleton.
    destruct m; auto. }
  destruct (round_progress size (m_view (m_singleThread mw0))
              (renderBtn_clicked mw0) Hinv1 eq_refl Hall1 round Hround)
    as [_ Hmembers].
  assert (Hs : settling (run_events (renderBtn_clicked mw0) round)).
  { apply (settling_run size round _ Hinv1). by apply press_settling. }
  destruct (settling_at_rest _ Hs Hpool Hsig) as [Hprog Hbtn].
  assert (Hdone : ∀ m,
    rendering (widget_of (run_events (renderBtn_clicked mw0) round) m) = false
    ∧ ∃ env, JobRuns m env ∈ round
             ∧ image_shown m env size (m_view (m_singleThread mw0))
                 (run_events (renderBtn_clicked mw0) round)).
  { intros m. destruct (Hmembers m) as [Hin | Hm]; [|done].
    rewrite Hpool in Hin. by apply elem_of_nil in Hin. }
  assert (Hfin : finished (run_events (renderBtn_clicked mw0) round) = 3).
  { unfold finished.
    destruct (Hdone SingleThreadWidget) as [H1 _].
    destruct (Hdone MultiThreadWidget) as [H2 _].
    destruct (Hdone ComputeWidget) as [H3 _]. cbn [widget_of] in H1, H2, H3.
    by rewrite H1, H2, H3. }
  split; [by apply Hbtn|]. split; [by rewrite Hprog|].
  intros m. destruct (Hdone m) as (Hm & env & Hin & Himg).
  split; [done|]. exists env. split; [done|]. exact Himg.
Qed.

Lemma round_shows_view_second_round :
  renderBtn_enabled
    (@run_events textbook_libm (new_main_window 3 4)
       ((constructor_returns ++ first_round DeviceOk)
        ++ RenderBtnPressed :: first_round (ProgramBuildFailure sample_failure)))
  = true
  ∧ progress_value
      (@run_events textbook_libm (new_main_window 3 4)
         ((constructor_returns ++ first_round DeviceOk)
          ++ RenderBtnPressed :: first_round (ProgramBuildFailure sample_failure)))
    = 3.
Proof.
  destruct (@round_shows_view textbook_libm 3 4
              (constructor_returns ++ first_round DeviceOk)
              (first_round (ProgramBuildFailure sample_failure)))
    as (Hen & Hprog & _).
  - reflexivity.
  - repeat constructor.
  - reflexivity.
  - reflexivity.
  - exact (conj Hen Hprog).
Defined.

(** X16: the job builds its grid from the view the widget holds when the job
    runs: a [setView] that comes after [rerender()] and before the job that
    call launched decides the samples and the image of that very job. *)
Theorem job_uses_view_at_run `{L : Libm} (env : Env) (w : MandelbrotWidget)
    (view : FractalView) :
  escapes_handler (m_renderType w) (device env) = false →
  ∃ run,
    render_job env (apply_effects (apply_effects w rerender) (setView view))
    = Done run
    ∧ job_points run = grid_points (m_size w) view
    ∧ ∀ x y, 0 ≤ x < m_size w → 0 ≤ y < m_size w →
        m_pixmap
          (apply_effects (apply_effects (apply_effects w rerender) (setView view))
             (job_effects run)) !! (x, y)
        = Some (color_of (m_renderType w)
                  (stored_count (m_renderType w) (device env)
                     (sample_at view x y (m_size w)))).
Proof.
  intros Hcaught. eexists.
  split; [by apply (render_job_done env
                      (apply_effects (apply_effects w rerender) (setView view)))|].
  cbn [job_points job_effects]. split; [done|].
  intros x y Hx Hy. rewrite pixmap_of_job.
  by rewrite decide_True by done.
Qed.

Lemma job_uses_view_at_run_2x2 :
  ∃ run,
    @render_job textbook_libm (sample_env DeviceOk)
      (apply_effects (apply_effects (new_widget CpuSingleThread 3 4) rerender)
         (setView LeftSpike)) = Done run
    ∧ job_points run = grid_points 2 LeftSpike.
Proof.
  destruct (@job_uses_view_at_run textbook_libm (sample_env DeviceOk)
              (new_widget CpuSingleThread 3 4) LeftSpike eq_refl)
    as (run & Hjob & Hpoints & _).
  exists run. split; [exact Hjob | exact Hpoints].
Defined.
